(** * RIPE Atlas probe scraper: a shallow embedding of [Scrapping.py]

  The program fetches probe descriptions over HTTP, normalises them into
  flat dictionaries, filters them and exports the result.  The embedding
  keeps Python's dynamic values, its exceptions (as an error monad) and
  the effects of the exporter (files and standard output, as an explicit
  state). *)

From Stdlib Require Import ZArith String Ascii List.
From Stdlib Require Import Floats.PrimFloat.
From stdpp Require Import base option strings list gmap pretty.

Set Warnings "-clear-no-such-hyp".

Local Open Scope string_scope.
Local Open Scope Z_scope.
Local Open Scope list_scope.

(** ** Python values and exceptions *)

Module Py.

(** The values [json.loads] produces, which are also the values a record
    holds.  A [str] is represented by its UTF-8 encoding; a [dict] by its
    items in insertion order, each key once (the keys of JSON objects and of
    records are strings). *)
#[warnings="-register-all"] Inductive pyval : Type :=
| PNone
| PBool (b : bool)
| PInt (z : Z)
| PFloat (f : float)
| PStr (s : string)
| PList (l : list pyval)
| PDict (d : list (string * pyval)).

Abbreviation dict := (list (string * pyval)).

Inductive exn : Type :=
| KeyError (key : string)
| IndexError
| TypeError
| ValueError
| AttributeError
| OverflowError
| OSError
| ConnectionError.

(** A computation either returns or raises. *)
Inductive result (A : Type) : Type :=
| Ok (a : A)
| Raise (e : exn).
Arguments Ok {A} a.
Arguments Raise {A} e.

#[export] Instance result_ret : MRet result := λ A a, Ok a.
#[export] Instance result_bind : MBind result := λ A B f m,
  match m with
  | Ok a => f a
  | Raise e => Raise e
  end.

(** [bool(v)] *)
Definition truthy (v : pyval) : bool :=
  match v with
  | PNone => false
  | PBool b => b
  | PInt z => negb (z =? 0)
  | PFloat f => negb (PrimFloat.eqb f 0%float)
  | PStr s => negb (String.eqb s "")
  | PList l => match l with [] => false | _ => true end
  | PDict d => match d with [] => false | _ => true end
  end.

(** [v == s] for a [str] literal or variable [s]: only an equal [str]
    compares equal. *)
Definition eq_str (v : pyval) (s : string) : bool :=
  match v with
  | PStr t => String.eqb t s
  | _ => false
  end.

Fixpoint dict_lookup (d : dict) (k : string) : option pyval :=
  match d with
  | [] => None
  | (k', v) :: d' => if String.eqb k' k then Some v else dict_lookup d' k
  end.

(** [d[k]] on a dict *)
Definition getitem (d : dict) (k : string) : result pyval :=
  match dict_lookup d k with
  | Some v => Ok v
  | None => Raise (KeyError k)
  end.

Definition dict_keys (d : dict) : list string := remove_dups (d.*1).

(** [v.get(k, dflt)]: only a dict has the method. *)
Definition get (v : pyval) (k : string) (dflt : pyval) : result pyval :=
  match v with
  | PDict d => Ok (default dflt (dict_lookup d k))
  | _ => Raise AttributeError
  end.

(** [v[k]] for a [str] key [k] *)
Definition subscript_str (v : pyval) (k : string) : result pyval :=
  match v with
  | PDict d => getitem d k
  | _ => Raise TypeError
  end.

Fixpoint is_substring (needle hay : string) : bool :=
  String.prefix needle hay ||
  match hay with
  | String _ hay' => is_substring needle hay'
  | EmptyString => false
  end.

(** [k in v] for a [str] [k] *)
Definition contains_str (k : string) (v : pyval) : result bool :=
  match v with
  | PDict d => Ok (bool_decide (is_Some (dict_lookup d k)))
  | PList l => Ok (existsb (λ x, eq_str x k) l)
  | PStr s => Ok (is_substring k s)
  | _ => Raise TypeError
  end.

(** The characters of a [str]: a byte of the form [10xxxxxx] continues the
    character begun before it. *)
Definition is_continuation (a : ascii) : bool :=
  let n := N_of_ascii a in ((128 <=? n) && (n <? 192))%N.

Fixpoint codepoints (s : string) : list string :=
  match s with
  | EmptyString => []
  | String a s' =>
      let rest := codepoints s' in
      match s', rest with
      | String b _, cp :: cps =>
          if is_continuation b then String a cp :: cps
          else String a EmptyString :: rest
      | _, _ => String a EmptyString :: rest
      end
  end.

(** [list(v)]: what iterating over [v] yields. *)
Definition iterate (v : pyval) : result (list pyval) :=
  match v with
  | PList l => Ok l
  | PStr s => Ok (PStr <$> codepoints s)
  | PDict d => Ok (PStr <$> dict_keys d)
  | _ => Raise TypeError
  end.

(** [a, b = v] *)
Definition unpack2 (v : pyval) : result (pyval * pyval) :=
  items ← iterate v;
  match items with
  | [a; b] => Ok (a, b)
  | _ => Raise ValueError
  end.

Definition as_str (v : pyval) : result string :=
  match v with
  | PStr s => Ok s
  | _ => Raise TypeError
  end.

(** [sep.join(items)] *)
Definition join (sep : string) (items : list pyval) : result string :=
  strs ← mapM as_str items; Ok (String.concat sep strs).

End Py.
Import Py.

(** ** Naive [datetime] values *)

Module Datetime.

Record datetime : Type := mk_datetime {
  year : Z; month : Z; day : Z;
  hour : Z; minute : Z; second : Z; microsecond : Z
}.

Definition components (d : datetime) : list Z :=
  [year d; month d; day d; hour d; minute d; second d; microsecond d].

Fixpoint lex_lt (a b : list Z) : bool :=
  match a, b with
  | x :: a', y :: b' => (x <? y) || ((x =? y) && lex_lt a' b')
  | [], _ :: _ => true
  | _, [] => false
  end.

(** [a < b] on naive datetimes *)
Definition lt (a b : datetime) : bool := lex_lt (components a) (components b).

Definition is_leap (y : Z) : bool :=
  (y mod 4 =? 0) && (negb (y mod 100 =? 0) || (y mod 400 =? 0)).

Definition days_in_month (y m : Z) : Z :=
  if m =? 2 then (if is_leap y then 29 else 28)
  else if (m =? 4) || (m =? 6) || (m =? 9) || (m =? 11) then 30
  else 31.

(** The range checks of the [datetime] constructor. *)
Definition valid (d : datetime) : bool :=
  (1 <=? year d) && (year d <=? 9999) &&
  (1 <=? month d) && (month d <=? 12) &&
  (1 <=? day d) && (day d <=? days_in_month (year d) (month d)) &&
  (0 <=? hour d) && (hour d <=? 23) &&
  (0 <=? minute d) && (minute d <=? 59) &&
  (0 <=? second d) && (second d <=? 59).

End Datetime.
Import Datetime.

(** ** [datetime.strptime(s, '%Y-%m-%d %H:%M:%S')]

    CPython turns the format into a regular expression, matches it against
    a prefix of the text, refuses trailing text and then builds the
    [datetime], whose constructor checks the ranges.  The definitions below
    follow that regular expression on ASCII text: a directive is a list of
    alternatives tried in order, an alternative a list of character
    classes. *)

Module Strptime.

Definition char_class := ascii → bool.

Definition digit_between (lo hi : N) : char_class :=
  λ c, let n := N_of_ascii c in ((48 + lo <=? n) && (n <=? 48 + hi))%N.

Definition any_digit : char_class := digit_between 0 9.

Definition exactly (a : ascii) : char_class := λ c, Ascii.eqb c a.

(** [\s] on ASCII text *)
Definition whitespace : char_class :=
  λ c, let n := N_of_ascii c in
       (((9 <=? n) && (n <=? 13)) || ((28 <=? n) && (n <=? 32)))%N.

(** Match a sequence of classes at the head of the text; gives the text
    matched and the rest. *)
Fixpoint match_seq (cs : list char_class) (s : string) : option (string * string) :=
  match cs with
  | [] => Some ("", s)
  | c :: cs' =>
      match s with
      | String a s' =>
          if c a then
            match match_seq cs' s' with
            | Some (m, r) => Some (String a m, r)
            | None => None
            end
          else None
      | EmptyString => None
      end
  end.

(** [int(text)] for the text of a directive, which is made of digits and, for
    the day, possibly a leading blank. *)
Fixpoint int_of_text (acc : Z) (s : string) : Z :=
  match s with
  | EmptyString => acc
  | String a s' =>
      if any_digit a then int_of_text (10 * acc + (Z.of_N (N_of_ascii a) - 48)) s'
      else int_of_text acc s'
  end.

(** Try the alternatives of a group in order; the first one after which the
    rest of the pattern [k] matches is taken. *)
Fixpoint group {A : Type} (alts : list (list char_class))
    (k : Z → string → option A) (s : string) : option A :=
  match alts with
  | [] => None
  | alt :: alts' =>
      match match_seq alt s with
      | Some (m, r) =>
          match k (int_of_text 0 m) r with
          | Some x => Some x
          | None => group alts' k s
          end
      | None => group alts' k s
      end
  end.

(** A literal character of the format *)
Definition lit {A : Type} (a : ascii) (k : string → option A) (s : string) : option A :=
  match s with
  | String b s' => if Ascii.eqb b a then k s' else None
  | EmptyString => None
  end.

Fixpoint skip_spaces (s : string) : string :=
  match s with
  | String a s' => if whitespace a then skip_spaces s' else s
  | EmptyString => s
  end.

(** [\s+]: what follows it in this format starts with a character that is
    not white space, so the greedy match is the only one that can succeed. *)
Definition spaces {A : Type} (k : string → option A) (s : string) : option A :=
  match s with
  | String a s' => if whitespace a then k (skip_spaces s') else None
  | EmptyString => None
  end.

Definition dY := [[any_digit; any_digit; any_digit; any_digit]].
Definition dm :=
  [[exactly "1"; digit_between 0 2]; [exactly "0"; digit_between 1 9]; [digit_between 1 9]].
Definition dd :=
  [[exactly "3"; digit_between 0 1]; [digit_between 1 2; any_digit];
   [exactly "0"; digit_between 1 9]; [digit_between 1 9]; [exactly " "; digit_between 1 9]].
Definition dH :=
  [[exactly "2"; digit_between 0 3]; [digit_between 0 1; any_digit]; [any_digit]].
Definition dM := [[digit_between 0 5; any_digit]; [any_digit]].
Definition dS :=
  [[exactly "6"; digit_between 0 1]; [digit_between 0 5; any_digit]; [any_digit]].

(** The regular expression of ['%Y-%m-%d %H:%M:%S'], matched at the start of
    the text: the fields found and the text left over. *)
Definition match_format (s : string) : option (datetime * string) :=
  group dY (λ Y, lit "-" (group dm (λ m, lit "-" (group dd (λ d, spaces
    (group dH (λ H, lit ":" (group dM (λ M, lit ":" (group dS (λ S rest,
      Some (mk_datetime Y m d H M S 0, rest)))))))))))) s.

(** [None] stands for the [ValueError] of a text that does not match, has
    text left over or names no valid date and time. *)
Definition strptime (s : string) : option datetime :=
  match match_format s with
  | Some (d, EmptyString) => if valid d then Some d else None
  | _ => None
  end.

End Strptime.

(** ** [datetime.strptime(s, "%Y-%m-%d")]

    The same construction for the format of the two command-line dates: the
    time of day is midnight. *)

Module StrptimeDate.

Definition match_format (s : string) : option (datetime * string) :=
  Strptime.group Strptime.dY (λ Y, Strptime.lit "-" (Strptime.group Strptime.dm
    (λ m, Strptime.lit "-" (Strptime.group Strptime.dd (λ d rest,
      Some (mk_datetime Y m d 0 0 0 0, rest)))))) s.

Definition strptime (s : string) : option datetime :=
  match match_format s with
  | Some (d, EmptyString) => if valid d then Some d else None
  | _ => None
  end.

End StrptimeDate.

(** ** The record filter *)

Module Filter.
Section filter_probes.

(** The list [probes] holds references to dictionaries; the filter reads the
    dictionaries through the references and appends the references it keeps.
    [Ref] is the type of references and [deref] the store. *)
Context {Ref : Type} (deref : Ref → dict).

(** [datetime.strptime(_, '%Y-%m-%d %H:%M:%S')] on a [str]; [None] is its
    [ValueError]. *)
Variable strptime : string → option datetime.

Definition py_strptime (v : pyval) : result datetime :=
  match v with
  | PStr s =>
      match strptime s with
      | Some d => Ok d
      | None => Raise ValueError
      end
  | _ => Raise TypeError
  end.

(** [country and probe["Pays"] != country]: [country] is [None] or a [str]. *)
Definition country_rejects (country : option string) (probe : dict) : result bool :=
  match country with
  | Some c =>
      if truthy (PStr c) then
        v ← getitem probe "Pays"; Ok (negb (eq_str v c))
      else Ok false
  | None => Ok false
  end.

(** [connected is not None and (probe["Status"] == "Connected") != connected] *)
Definition connected_rejects (connected : option bool) (probe : dict) : result bool :=
  match connected with
  | Some b => v ← getitem probe "Status"; Ok (xorb (eq_str v "Connected") b)
  | None => Ok false
  end.

(** The two date tests have the same shape:
    [if after and probe[field] != "N/A": t = strptime(probe[field]); if t < after: continue].
    A [datetime] is always true, so [after] is tested for [None] only. *)
Definition date_rejects (field : string) (after : option datetime) (probe : dict)
    : result bool :=
  match after with
  | Some threshold =>
      v ← getitem probe field;
      if negb (eq_str v "N/A") then
        v' ← getitem probe field;
        t ← py_strptime v';
        Ok (lt t threshold)
      else Ok false
  | None => Ok false
  end.

(** The body of the loop up to [filtered.append]: [true] when a [continue] is
    taken. *)
Definition rejects (country : option string) (connected : option bool)
    (first_connected_after last_connected_after : option datetime)
    (probe : dict) : result bool :=
  r1 ← country_rejects country probe;
  if (r1 : bool) then Ok true else
  r2 ← connected_rejects connected probe;
  if (r2 : bool) then Ok true else
  r3 ← date_rejects "First Connected" first_connected_after probe;
  if (r3 : bool) then Ok true else
  r4 ← date_rejects "Last Connected" last_connected_after probe;
  if (r4 : bool) then Ok true else
  Ok false.

Fixpoint filter_loop (country : option string) (connected : option bool)
    (first_connected_after last_connected_after : option datetime)
    (probes filtered : list Ref) : result (list Ref) :=
  match probes with
  | [] => Ok filtered
  | probe :: rest =>
      r ← rejects country connected first_connected_after last_connected_after
            (deref probe);
      filter_loop country connected first_connected_after last_connected_after
        rest (if (r : bool) then filtered else filtered ++ [probe])
  end.

Definition filter_probes (probes : list Ref) (country : option string)
    (connected : option bool)
    (first_connected_after last_connected_after : option datetime)
    : result (list Ref) :=
  filter_loop country connected first_connected_after last_connected_after probes [].

End filter_probes.
End Filter.
Import Filter.

(** ** The probe fetcher and the loop of the driver *)

Module Fetcher.

(** What [requests.get] returns: the status and the outcome of
    [response.json()], which raises on a body that is not JSON. *)
Record response : Type := mk_response {
  status_code : Z;
  json : result pyval
}.

(** [API_URL.format(x)] with [API_URL = "https://atlas.ripe.net/api/v2/probes/{}"] *)
Definition API_URL_format (x : string) : string :=
  "https://atlas.ripe.net/api/v2/probes/" +:+ x.

Definition NA : pyval := PStr "N/A".

Section get_probe_info.

(** The network: the answer to a GET of a URL, or the exception of
    [requests.get]. *)
Variable requests_get : string → result response.

(** [datetime.fromtimestamp(ts, tz).strftime('%Y-%m-%d %H:%M:%S')] with
    [tz = pytz.timezone('Europe/Paris')] *)
Variable fromtimestamp_strftime : pyval → result string.

Definition format_timestamp (ts : pyval) : result pyval :=
  if truthy ts then s ← fromtimestamp_strftime ts; Ok (PStr s) else Ok NA.

(** The two coordinates:
    [if geometry and "coordinates" in geometry: ... = geometry["coordinates"]] *)
Definition geometry_coordinates (geometry : pyval) : result (pyval * pyval) :=
  if truthy geometry then
    c ← contains_str "coordinates" geometry;
    if (c : bool) then
      coordinates ← subscript_str geometry "coordinates";
      unpack2 coordinates
    else Ok (NA, NA)
  else Ok (NA, NA).

(** [", ".join(tag["name"] for tag in data.get("tags", [])) if data.get("tags") else "N/A"] *)
Definition tags_field (data : pyval) : result pyval :=
  test ← get data "tags" PNone;
  if truthy test then
    tags ← get data "tags" (PList []);
    items ← iterate tags;
    names ← mapM (λ tag, subscript_str tag "name") items;
    joined ← join ", " names;
    Ok (PStr joined)
  else Ok NA.

(** The branch [response.status_code == 200], from the parsed body [data]. *)
Definition probe_record (data : pyval) : result dict :=
  geometry ← get data "geometry" PNone;
  '(longitude, latitude) ← geometry_coordinates geometry;
  id ← get data "id" NA;
  address_v4 ← get data "address_v4" NA;
  asn_v4 ← get data "asn_v4" NA;
  country_code ← get data "country_code" NA;
  status ← get data "status" (PDict []);
  status_name ← get status "name" (PStr "Unknown");
  first_connected ← get data "first_connected" PNone;
  first ← format_timestamp first_connected;
  last_connected ← get data "last_connected" PNone;
  last ← format_timestamp last_connected;
  tags ← tags_field data;
  Ok [("ID", id); ("IPv4", address_v4); ("ASN", asn_v4); ("Pays", country_code);
      ("Longitude", longitude); ("Latitude", latitude); ("Status", status_name);
      ("First Connected", first); ("Last Connected", last); ("Tags", tags)].

(** [None] of Python is [None] here. *)
Definition get_probe_info (probe_id : Z) : result (option dict) :=
  let url := API_URL_format (pretty probe_id) in
  response ← requests_get url;
  if status_code response =? 200 then
    data ← json response;
    record ← probe_record data;
    Ok (Some record)
  else Ok None.

(** The loop of [main] over the identifiers, with [if info: probes.append(info)]
    for [info] a dict, true when it is not empty, or [None]; [time.sleep] has
    no effect on the values and is left out. *)
Fixpoint main_loop (ids : list Z) (probes : list dict) : result (list dict) :=
  match ids with
  | [] => Ok probes
  | probe_id :: rest =>
      info ← get_probe_info probe_id;
      main_loop rest
        (match info with
         | Some record => if truthy (PDict record) then probes ++ [record] else probes
         | None => probes
         end)
  end.

(** [range(a, b)] *)
Definition range (a b : Z) : list Z := seqZ a (b - a).

(** [probes] of [main] after the loop over [range(start_id, end_id + 1)] *)
Definition collect_probes (start_id end_id : Z) : result (list dict) :=
  main_loop (range start_id (end_id + 1)) [].

End get_probe_info.
End Fetcher.
Import Fetcher.

(** ** The exporter *)

Module Exporter.

(** *** [os.path.splitext] (POSIX) *)

(** [p.rfind(c)] for a single character [c]: the last index, or [-1]. *)
Fixpoint rfind_from (c : ascii) (p : string) (i last : Z) : Z :=
  match p with
  | EmptyString => last
  | String a p' => rfind_from c p' (i + 1) (if Ascii.eqb a c then i else last)
  end.

Definition rfind (c : ascii) (p : string) : Z := rfind_from c p 0 (-1).

Fixpoint str_drop (n : nat) (p : string) : string :=
  match n, p with
  | S n', String _ p' => str_drop n' p'
  | _, _ => p
  end.

Fixpoint str_take (n : nat) (p : string) : string :=
  match n, p with
  | S n', String a p' => String a (str_take n' p')
  | _, _ => EmptyString
  end.

(** [p[i:i+1]] for [0 <= i] *)
Definition char_at (p : string) (i : Z) : string :=
  str_take 1 (str_drop (Z.to_nat i) p).

(** The [while filenameIndex < dotIndex] loop of [genericpath._splitext]:
    [n] bounds the iterations left. *)
Fixpoint skip_leading_dots (n : nat) (p : string) (extsep : ascii)
    (filenameIndex dotIndex : Z) : string * string :=
  match n with
  | O => (p, EmptyString)
  | S n' =>
      if filenameIndex <? dotIndex then
        if negb (String.eqb (char_at p filenameIndex) (String extsep EmptyString)) then
          (str_take (Z.to_nat dotIndex) p, str_drop (Z.to_nat dotIndex) p)
        else skip_leading_dots n' p extsep (filenameIndex + 1) dotIndex
      else (p, EmptyString)
  end.

Definition _splitext (p : string) (sep : ascii) (altsep : option ascii)
    (extsep : ascii) : string * string :=
  let sepIndex := rfind sep p in
  let sepIndex :=
    match altsep with
    | Some alt => Z.max sepIndex (rfind alt p)
    | None => sepIndex
    end in
  let dotIndex := rfind extsep p in
  if dotIndex >? sepIndex then
    skip_leading_dots (S (Z.to_nat (dotIndex - (sepIndex + 1)))) p extsep
      (sepIndex + 1) dotIndex
  else (p, EmptyString).

(** [posixpath.splitext] *)
Definition splitext (p : string) : string * string := _splitext p "/" None ".".

(** *** [get_output_filename] *)

Definition extensions : list (string * string) :=
  [("csv", ".csv"); ("json", ".json"); ("txt", ".txt")].

(** [d.get(k, dflt)] on a dict of strings *)
Fixpoint table_get (d : list (string * string)) (k dflt : string) : string :=
  match d with
  | [] => dflt
  | (k', v) :: d' => if String.eqb k' k then v else table_get d' k dflt
  end.

Definition get_output_filename (base_name output_format : string) : string :=
  let ext := table_get extensions output_format ".csv" in
  (splitext base_name).1 +:+ ext.

(** *** [export_data] *)

(** The part of the world the exporter acts on: the files, by name, and the
    lines printed. *)
Record world : Type := mk_world {
  files : gmap string string;
  stdout : list string
}.

Definition print (line : string) (w : world) : world :=
  mk_world (files w) (stdout w ++ [line]).

(** [file.write(text)] on the file opened under [filename] *)
Definition write (filename text : string) (w : world) : world :=
  mk_world (alter (λ content, content +:+ text) filename (files w)) (stdout w).

Definition newline : string := String (ascii_of_N 10) EmptyString.

Definition nothing_to_export : string := "❌ Aucune donnée à exporter.".

Definition exported_to (filename : string) : string :=
  "✅ Exporté avec succès dans " +:+ filename.

Section export_data.

(** Whether [open(filename, mode="w")] succeeds; it raises [OSError]
    otherwise. *)
Variable writable : string → bool.

(** [csv.DictWriter(file, fieldnames=keys)] followed by [writeheader()] and
    [writerows(probes)]: the text written and the exception that ended the
    writing, if any. *)
Variable csv_writer : list string → list dict → string * option exn.

(** [json.dump(probes, file, indent=4, ensure_ascii=False)], likewise. *)
Variable json_dump : list dict → string * option exn.

(** [str(v)], as the f-strings format a value. *)
Variable str : pyval → string.

(** [open(filename, mode="w")] creates the file or empties it. *)
Definition open_w (filename : string) (w : world) : result world :=
  if writable filename then Ok (mk_world (<[filename := ""]> (files w)) (stdout w))
  else Raise OSError.

(** The texts of the [file.write] calls for one probe, in order; evaluating
    an f-string raises [KeyError] on a missing field. *)
Definition txt_block (probe : dict) : list (result string) :=
  let field (label key : string) : result string :=
    v ← getitem probe key; Ok (label +:+ ": " +:+ str v +:+ newline) in
  [ field "ID" "ID"; field "IPv4" "IPv4"; field "ASN" "ASN"; field "Pays" "Pays";
    (lon ← getitem probe "Longitude"; lat ← getitem probe "Latitude";
     Ok ("Longitude: " +:+ str lon +:+ ", Latitude: " +:+ str lat +:+ newline));
    field "Status" "Status"; field "First Connected" "First Connected";
    field "Last Connected" "Last Connected"; field "Tags" "Tags";
    Ok (String.concat "" (replicate 40 "-") +:+ newline) ].

(** Perform the writes in order until one raises. *)
Fixpoint write_all (filename : string) (texts : list (result string)) (w : world)
    : world * option exn :=
  match texts with
  | [] => (w, None)
  | Ok text :: rest => write_all filename rest (write filename text w)
  | Raise e :: _ => (w, Some e)
  end.

(** The three [with open(...)] blocks: the world afterwards and the exception
    raised, if any. *)
Definition write_file (probes : list dict) (filename output_format : string)
    (w : world) : world * option exn :=
  if String.eqb output_format "csv" then
    match probes with
    | first :: _ =>
        let keys := dict_keys first in
        match open_w filename w with
        | Ok w1 =>
            let '(text, e) := csv_writer keys probes in (write filename text w1, e)
        | Raise e => (w, Some e)
        end
    | [] => (w, Some IndexError)
    end
  else if String.eqb output_format "json" then
    match open_w filename w with
    | Ok w1 => let '(text, e) := json_dump probes in (write filename text w1, e)
    | Raise e => (w, Some e)
    end
  else if String.eqb output_format "txt" then
    match open_w filename w with
    | Ok w1 => write_all filename (probes ≫= txt_block) w1
    | Raise e => (w, Some e)
    end
  else (w, None).

Definition export_data (probes : list dict) (filename output_format : string)
    (w : world) : world * option exn :=
  match probes with
  | [] => (print nothing_to_export w, None)
  | _ :: _ =>
      match write_file probes filename output_format w with
      | (w1, None) => (print (exported_to filename) w1, None)
      | (w1, Some e) => (w1, Some e)
      end
  end.

End export_data.
End Exporter.
Import Exporter.

(** ** The driver *)

Module Driver.

(** What [parser.parse_args()] returns: [--connected] is an [int] among 0 and
    1, the two dates are text, and an option that is not given is [None]. *)
Record namespace : Type := mk_namespace {
  start_id : Z;
  end_id : Z;
  country : option string;
  connected : option Z;
  first_connected_after : option string;
  last_connected_after : option string;
  format : string;
  output : string
}.

Section main.

Variable requests_get : string → result response.
Variable fromtimestamp_strftime : pyval → result string.

(** [datetime.strptime(_, '%Y-%m-%d %H:%M:%S')] and
    [datetime.strptime(_, "%Y-%m-%d")]; [None] is their [ValueError]. *)
Variable strptime : string → option datetime.
Variable strptime_date : string → option datetime.

Variable writable : string → bool.
Variable csv_writer : list string → list dict → string * option exn.
Variable json_dump : list dict → string * option exn.
Variable str : pyval → string.

(** [datetime.strptime(arg, "%Y-%m-%d") if arg else None] *)
Definition after_option (arg : option string) : result (option datetime) :=
  match arg with
  | Some text =>
      if truthy (PStr text) then
        match strptime_date text with
        | Some d => Ok (Some d)
        | None => Raise ValueError
        end
      else Ok None
  | None => Ok None
  end.

(** [bool(args.connected) if args.connected is not None else None] *)
Definition connected_filter (arg : option Z) : option bool :=
  match arg with
  | Some z => Some (truthy (PInt z))
  | None => None
  end.

(** [main] after [parse_args]: the world afterwards and the exception that
    ended the run, if any.  The records are the dictionaries themselves. *)
Definition main (args : namespace) (w : world) : world * option exn :=
  match after_option (first_connected_after args) with
  | Raise e => (w, Some e)
  | Ok first =>
      match after_option (last_connected_after args) with
      | Raise e => (w, Some e)
      | Ok last =>
          match collect_probes requests_get fromtimestamp_strftime
                  (start_id args) (end_id args) with
          | Raise e => (w, Some e)
          | Ok probes =>
              match filter_probes id strptime probes (country args)
                      (connected_filter (connected args)) first last with
              | Raise e => (w, Some e)
              | Ok filtered_probes =>
                  let output_filename :=
                    get_output_filename (output args) (format args) in
                  export_data writable csv_writer json_dump str filtered_probes
                    output_filename (format args) w
              end
          end
      end
  end.

End main.
End Driver.

(** ** Criteria and scenarios of the specification *)

(** The four optional criteria of the filter, as one value. *)
Record criteria : Type := mk_criteria {
  country : option string;
  connected : option bool;
  first_connected_after : option datetime;
  last_connected_after : option datetime
}.

Definition filter_by {Ref : Type} (deref : Ref → dict)
    (strptime : string → option datetime) (probes : list Ref) (c : criteria)
    : result (list Ref) :=
  filter_probes deref strptime probes (country c) (connected c)
    (first_connected_after c) (last_connected_after c).

(** Supplying the criteria of [a] and of [b] together. *)
Definition both (a b : criteria) : criteria :=
  mk_criteria (country a ∪ country b) (connected a ∪ connected b)
    (first_connected_after a ∪ first_connected_after b)
    (last_connected_after a ∪ last_connected_after b).

Definition agree {A : Type} (x y : option A) : Prop :=
  ∀ u v, x = Some u → y = Some v → u = v.

(** Two sets of criteria can be supplied together when they give no criterion
    two different values. *)
Definition compatible (a b : criteria) : Prop :=
  agree (country a) (country b) ∧ agree (connected a) (connected b) ∧
  agree (first_connected_after a) (first_connected_after b) ∧
  agree (last_connected_after a) (last_connected_after b).

(** The test of one record returns and takes no [continue]. *)
Definition keeps {Ref : Type} (deref : Ref → dict) (strptime : string → option datetime)
    (c : option string) (k : option bool) (f l : option datetime) (probe : Ref) : Prop :=
  rejects strptime c k f l (deref probe) = Ok false.

(** The test of one record returns. *)
Definition tested {Ref : Type} (deref : Ref → dict) (strptime : string → option datetime)
    (c : option string) (k : option bool) (f l : option datetime) (probe : Ref) : Prop :=
  ∃ r, rejects strptime c k f l (deref probe) = Ok r.

#[global] Instance exn_eq_dec : EqDecision exn.
Proof. solve_decision. Defined.

#[global] Instance result_eq_dec {A : Type} `{EqDecision A} : EqDecision (result A).
Proof. solve_decision. Defined.

#[global] Instance keeps_dec {Ref : Type} (deref : Ref → dict)
    (strptime : string → option datetime) (c : option string) (k : option bool)
    (f l : option datetime) (probe : Ref) : Decision (keeps deref strptime c k f l probe).
Proof. unfold keeps. apply _. Defined.

(** A date field as the fetcher fills it: the marker, or text that parses. *)
Definition date_field_ok (strptime : string → option datetime) (probe : dict)
    (field : string) : Prop :=
  ∃ text, dict_lookup probe field = Some (PStr text) ∧
          (text = "N/A" ∨ is_Some (strptime text)).

(** A record that has the four fields the filter reads, with date fields as
    the fetcher fills them. *)
Definition record_ok (strptime : string → option datetime) (probe : dict) : Prop :=
  is_Some (dict_lookup probe "Pays") ∧ is_Some (dict_lookup probe "Status") ∧
  date_field_ok strptime probe "First Connected" ∧
  date_field_ok strptime probe "Last Connected".

(** The tests of the loop body, evaluated in order up to the first that takes
    its [continue]. *)
Fixpoint first_true (stages : list (result bool)) : result bool :=
  match stages with
  | [] => Ok false
  | stage :: rest => r ← stage; if (r : bool) then Ok true else first_true rest
  end.

(** How one test with the criteria of [both a b] relates to the same test with
    the criteria of [a] and of [b]: it is the one of [a], and the one of [b]
    is idle or the same; or it is the one of [b] and the one of [a] is idle. *)
Inductive merged : result bool → result bool → result bool → Prop :=
| merged_left sa sb : sb = Ok false ∨ sb = sa → merged sa sb sa
| merged_right sb : merged (Ok false) sb sb.

(** [probe["Status"] == "Connected"] for a record that has the field *)
Definition status_is_connected (probe : dict) : bool :=
  match dict_lookup probe "Status" with
  | Some v => eq_str v "Connected"
  | None => false
  end.

(** What a date test lets through: the marker, or a time that parses and is
    not before the threshold. *)
Definition passes_date (strptime : string → option datetime) (field : string)
    (threshold : datetime) (probe : dict) : Prop :=
  ∃ v, getitem probe field = Ok v ∧
       (v = PStr "N/A" ∨
        ∃ t, py_strptime strptime v = Ok t ∧ lt t threshold = false).

Module Scenario.

(** The two records of the scenarios, with every field of a record. *)
Definition probe1 : dict :=
  [("ID", PInt 1); ("IPv4", PStr "192.0.2.1"); ("ASN", PInt 64496);
   ("Pays", PStr "FR"); ("Longitude", PFloat 2.25); ("Latitude", PFloat 48.875);
   ("Status", PStr "Connected"); ("First Connected", PStr "2020-01-01 00:00:00");
   ("Last Connected", PStr "N/A"); ("Tags", PStr "home, fibre")].

Definition probe2 : dict :=
  [("ID", PInt 2); ("IPv4", PStr "N/A"); ("ASN", PStr "N/A");
   ("Pays", PStr "US"); ("Longitude", PStr "N/A"); ("Latitude", PStr "N/A");
   ("Status", PStr "Disconnected"); ("First Connected", PStr "N/A");
   ("Last Connected", PStr "N/A"); ("Tags", PStr "N/A")].

Definition probes : list dict := [probe1; probe2].

(** The same two records held in a store and named by their addresses. *)
Definition store (address : nat) : dict :=
  match address with
  | O => probe1
  | _ => probe2
  end.

(** [datetime.strptime("2021-01-01", "%Y-%m-%d")] *)
Definition threshold : datetime := mk_datetime 2021 1 1 0 0 0 0.

(** A list that names both records twice, and three sets of criteria. *)
Definition addresses : list nat := [1; 0; 1; 0]%nat.
Definition by_country : criteria := mk_criteria (Some "FR") None None None.
Definition by_status : criteria := mk_criteria None (Some true) None None.
Definition by_date : criteria := mk_criteria None None (Some threshold) None.

(** One point of the Europe/Paris conversion: the epoch second at which
    2020 began in Paris.  The scenarios consult no other. *)
Definition paris_time (ts : pyval) : result string :=
  match ts with
  | PInt 1577833200 => Ok "2020-01-01 00:00:00"
  | _ => Raise OverflowError
  end.

(** The bodies a server gives for probes 1 and 2; it knows no other. *)
Definition fields1 : dict :=
  [("id", PInt 1); ("address_v4", PStr "192.0.2.1"); ("asn_v4", PInt 64496);
   ("country_code", PStr "FR");
   ("geometry", PDict [("type", PStr "Point");
                       ("coordinates", PList [PFloat 2.25; PFloat 48.875])]);
   ("status", PDict [("id", PInt 1); ("name", PStr "Connected")]);
   ("first_connected", PInt 1577833200);
   ("tags", PList [PDict [("name", PStr "home"); ("slug", PStr "home")];
                   PDict [("name", PStr "fibre"); ("slug", PStr "fibre")]])].

Definition fields2 : dict :=
  [("id", PInt 2); ("country_code", PStr "US");
   ("status", PDict [("id", PInt 2); ("name", PStr "Disconnected")])].

Definition not_found : response :=
  mk_response 404 (Ok (PDict [("detail", PStr "Not found.")])).

Definition server (url : string) : result response :=
  if String.eqb url "https://atlas.ripe.net/api/v2/probes/1"
  then Ok (mk_response 200 (Ok (PDict fields1)))
  else if String.eqb url "https://atlas.ripe.net/api/v2/probes/2"
  then Ok (mk_response 200 (Ok (PDict fields2)))
  else Ok not_found.

(** A world for the exporter in which no file can be opened for writing and
    the writers of the libraries fail; a world with no file and no output. *)
Definition read_only (filename : string) : bool := false.
Definition any_file (filename : string) : bool := true.
Definition failing_csv (keys : list string) (rows : list dict) : string * option exn :=
  (EmptyString, Some OSError).
Definition failing_json (rows : list dict) : string * option exn :=
  (EmptyString, Some OSError).
Definition empty_world : world := mk_world ∅ [].

(** [str(v)] on the values the two records hold: text, integers, [None],
    booleans and the two coordinates of record 1.  The display of other
    floats and of containers is not needed by the scenarios and left empty. *)
Definition show (v : pyval) : string :=
  match v with
  | PStr s => s
  | PInt z => pretty z
  | PNone => "None"
  | PBool true => "True"
  | PBool false => "False"
  | PFloat x =>
      if PrimFloat.eqb x 2.25 then "2.25"
      else if PrimFloat.eqb x 48.875 then "48.875"
      else EmptyString
  | _ => EmptyString
  end.

(** The text file of record 2. *)
Definition block2 : string :=
  "ID: 2" +:+ newline +:+ "IPv4: N/A" +:+ newline +:+ "ASN: N/A" +:+ newline +:+
  "Pays: US" +:+ newline +:+ "Longitude: N/A, Latitude: N/A" +:+ newline +:+
  "Status: Disconnected" +:+ newline +:+ "First Connected: N/A" +:+ newline +:+
  "Last Connected: N/A" +:+ newline +:+ "Tags: N/A" +:+ newline +:+
  "----------------------------------------" +:+ newline.

End Scenario.

(** The character [c] occurs in [s]. *)
Fixpoint occurs (c : ascii) (s : string) : bool :=
  match s with
  | EmptyString => false
  | String a s' => Ascii.eqb a c || occurs c s'
  end.

(** [s] is made of dots only. *)
Fixpoint all_dots (s : string) : bool :=
  match s with
  | EmptyString => true
  | String a s' => Ascii.eqb a "." && all_dots s'
  end.

(** A directory prefix: empty, or ending with the separator. *)
Definition is_dir_prefix (dir : string) : Prop :=
  dir = EmptyString ∨ ∃ dir', dir = dir' +:+ "/".

(** The canonical extension of a format, as the specification lists them. *)
Definition canonical_extension (output_format : string) : string :=
  if String.eqb output_format "json" then ".json"
  else if String.eqb output_format "txt" then ".txt"
  else ".csv".

(** An extension: nothing, or a dot followed by characters that are neither
    dots nor separators. *)
Definition is_extension (ext : string) : Prop :=
  ext = EmptyString ∨
  ∃ e, ext = String "." e ∧ occurs "." e = false ∧ occurs "/" e = false.

(** A server that answers a request for probe [j] with status 200 only with a
    JSON object whose "id" is [j]. *)
Definition honest (requests_get : string → result response) : Prop :=
  ∀ (j : Z) (resp : response) (data : pyval),
    requests_get (API_URL_format (pretty j)) = Ok resp →
    status_code resp = 200 → json resp = Ok data →
    ∃ d, data = PDict d ∧ dict_lookup d "id" = Some (PInt j).

(** The fields of a record, in the order of the dictionary display. *)
Definition field_names : list string :=
  ["ID"; "IPv4"; "ASN"; "Pays"; "Longitude"; "Latitude"; "Status";
   "First Connected"; "Last Connected"; "Tags"].

(** A field holds a value: the key is there and the value is not [None]. *)
Definition populated (record : dict) (field : string) : Prop :=
  ∃ v, dict_lookup record field = Some v ∧ v ≠ PNone.

(** The field [key] of the body, when it is there and not null. *)
Definition given (d : dict) (key : string) (v : pyval) : Prop :=
  dict_lookup d key = Some v ∧ v ≠ PNone.

Definition timestamp_ok (fromtimestamp_strftime : pyval → result string)
    (d : dict) (key : string) : Prop :=
  match dict_lookup d key with
  | Some ts => truthy ts = false ∨ ∃ s, fromtimestamp_strftime ts = Ok s
  | None => True
  end.

Definition tag_ok (tag : pyval) : Prop :=
  ∃ td name, tag = PDict td ∧ dict_lookup td "name" = Some (PStr name).

(** A body whose fields, where present, have the shape the remote interface
    documents: geometry null or an object whose coordinates, if any, are a
    pair; status an object; the two timestamps null, zero or convertible;
    tags null or a list of objects that have a name. *)
Definition well_formed (fromtimestamp_strftime : pyval → result string)
    (d : dict) : Prop :=
  match dict_lookup d "geometry" with
  | Some g =>
      truthy g = false ∨
      ∃ gd, g = PDict gd ∧
            match dict_lookup gd "coordinates" with
            | Some c => ∃ x y, c = PList [x; y]
            | None => True
            end
  | None => True
  end ∧
  match dict_lookup d "status" with
  | Some st => ∃ sd, st = PDict sd
  | None => True
  end ∧
  timestamp_ok fromtimestamp_strftime d "first_connected" ∧
  timestamp_ok fromtimestamp_strftime d "last_connected" ∧
  match dict_lookup d "tags" with
  | Some t => truthy t = false ∨ ∃ items, t = PList items ∧ Forall tag_ok items
  | None => True
  end.

(** The fields copied from the body with [data.get(key, "N/A")], with their
    keys. *)
Definition plain_fields : list (string * string) :=
  [("ID", "id"); ("IPv4", "address_v4"); ("ASN", "asn_v4"); ("Pays", "country_code")].

(** The body gives an explicit null where the field [field] of the record
    takes its value: one of the four plain keys, the name of the status, or
    one of the two coordinates. *)
Definition null_given (d : dict) (field : string) : Prop :=
  (∃ key, (field, key) ∈ plain_fields ∧ dict_lookup d key = Some PNone) ∨
  (field = "Status" ∧
   ∃ sd, dict_lookup d "status" = Some (PDict sd) ∧
         dict_lookup sd "name" = Some PNone) ∨
  (∃ gd x y, dict_lookup d "geometry" = Some (PDict gd) ∧
             dict_lookup gd "coordinates" = Some (PList [x; y]) ∧
             (field = "Longitude" ∧ x = PNone ∨ field = "Latitude" ∧ y = PNone)).

(** What the record [r] made from the body [d] holds, field by field. *)
Definition defaulted (d r : dict) : Prop :=
  (∀ field key, (field, key) ∈ plain_fields →
     (dict_lookup d key = None → getitem r field = Ok (PStr "N/A")) ∧
     (∀ v, given d key v → getitem r field = Ok v)) ∧
  (truthy (default PNone (dict_lookup d "geometry")) = false →
     getitem r "Longitude" = Ok (PStr "N/A") ∧
     getitem r "Latitude" = Ok (PStr "N/A")) ∧
  (∀ gd, dict_lookup d "geometry" = Some (PDict gd) →
         dict_lookup gd "coordinates" = None →
     getitem r "Longitude" = Ok (PStr "N/A") ∧
     getitem r "Latitude" = Ok (PStr "N/A")) ∧
  (¬ (∃ gd c, dict_lookup d "geometry" = Some (PDict gd) ∧
              dict_lookup gd "coordinates" = Some c) →
     getitem r "Longitude" = Ok (PStr "N/A") ∧
     getitem r "Latitude" = Ok (PStr "N/A")) ∧
  (∀ gd x y, dict_lookup d "geometry" = Some (PDict gd) →
             dict_lookup gd "coordinates" = Some (PList [x; y]) →
     getitem r "Longitude" = Ok x ∧ getitem r "Latitude" = Ok y) ∧
  (dict_lookup (default [] (match dict_lookup d "status" with
                            | Some (PDict sd) => Some sd
                            | _ => None
                            end)) "name" = None →
     getitem r "Status" = Ok (PStr "Unknown")) ∧
  (∀ sd v, dict_lookup d "status" = Some (PDict sd) →
           dict_lookup sd "name" = Some v → getitem r "Status" = Ok v) ∧
  (truthy (default PNone (dict_lookup d "first_connected")) = false →
     getitem r "First Connected" = Ok (PStr "N/A")) ∧
  (truthy (default PNone (dict_lookup d "last_connected")) = false →
     getitem r "Last Connected" = Ok (PStr "N/A")) ∧
  (truthy (default PNone (dict_lookup d "tags")) = false →
     getitem r "Tags" = Ok (PStr "N/A")) ∧
  (∀ field, field ∈ ["First Connected"; "Last Connected"; "Tags"] →
     ∃ text, getitem r field = Ok (PStr text)) ∧
  (∀ field, field ∈ field_names → populated r field ∨ null_given d field).

(** What makes a date test raise [e] on a record: the field is missing, it is
    not text, or it is text other than the marker that does not parse. *)
Definition date_field_raises (strptime : string → option datetime) (probe : dict)
    (field : string) (e : exn) : Prop :=
  (dict_lookup probe field = None ∧ e = KeyError field) ∨
  (∃ v, dict_lookup probe field = Some v ∧ (∀ s, v ≠ PStr s) ∧ e = TypeError) ∨
  (∃ s, dict_lookup probe field = Some (PStr s) ∧ s ≠ "N/A" ∧ strptime s = None ∧
        e = ValueError).

(** [probe["Pays"] == country] for a record that has the field *)
Definition pays_is (country : string) (probe : dict) : bool :=
  match dict_lookup probe "Pays" with
  | Some v => eq_str v country
  | None => false
  end.

(** The text the exporter writes for one record in the text format, with
    [None] shown for a field that is not there. *)
Definition expected_block (str : pyval → string) (probe : dict) : string :=
  let shown (key : string) : string := str (default PNone (dict_lookup probe key)) in
  "ID: " +:+ shown "ID" +:+ newline +:+
  "IPv4: " +:+ shown "IPv4" +:+ newline +:+
  "ASN: " +:+ shown "ASN" +:+ newline +:+
  "Pays: " +:+ shown "Pays" +:+ newline +:+
  "Longitude: " +:+ shown "Longitude" +:+ ", Latitude: " +:+ shown "Latitude"
    +:+ newline +:+
  "Status: " +:+ shown "Status" +:+ newline +:+
  "First Connected: " +:+ shown "First Connected" +:+ newline +:+
  "Last Connected: " +:+ shown "Last Connected" +:+ newline +:+
  "Tags: " +:+ shown "Tags" +:+ newline +:+
  "----------------------------------------" +:+ newline.

(** The ten lines of that text, one for each [file.write]. *)
Definition expected_lines (str : pyval → string) (probe : dict) : list string :=
  let shown (key : string) : string := str (default PNone (dict_lookup probe key)) in
  [ "ID: " +:+ shown "ID" +:+ newline;
    "IPv4: " +:+ shown "IPv4" +:+ newline;
    "ASN: " +:+ shown "ASN" +:+ newline;
    "Pays: " +:+ shown "Pays" +:+ newline;
    "Longitude: " +:+ shown "Longitude" +:+ ", Latitude: " +:+ shown "Latitude"
      +:+ newline;
    "Status: " +:+ shown "Status" +:+ newline;
    "First Connected: " +:+ shown "First Connected" +:+ newline;
    "Last Connected: " +:+ shown "Last Connected" +:+ newline;
    "Tags: " +:+ shown "Tags" +:+ newline;
    "----------------------------------------" +:+ newline ].

(** The fields each of the nine labelled lines reads, in the order it reads
    them. *)
Definition line_fields : list (list string) :=
  [ ["ID"]; ["IPv4"]; ["ASN"]; ["Pays"]; ["Longitude"; "Latitude"]; ["Status"];
    ["First Connected"]; ["Last Connected"]; ["Tags"] ].

(** A record has every field the text format prints. *)
Definition has_fields (probe : dict) : Prop :=
  Forall (λ key, is_Some (dict_lookup probe key)) field_names.

(** The formats for which the exporter opens a file. *)
Definition known_format (output_format : string) : Prop :=
  output_format = "csv" ∨ output_format = "json" ∨ output_format = "txt".

(** What writing to one file may do to a world: change that file, leave the
    others and the output as they are. *)
Definition only_file (filename : string) (w w' : world) : Prop :=
  (∀ other, other ≠ filename → files w' !! other = files w !! other) ∧
  stdout w' = stdout w.

(** Further cases: servers that fail on probe 2, and command lines. *)
Module Cases.

Definition url2 : string := "https://atlas.ripe.net/api/v2/probes/2".

(** The request for probe 2 raises. *)
Definition unreachable (url : string) : result response :=
  if String.eqb url url2 then Raise ConnectionError else Scenario.server url.

(** [--start-id 1 --end-id 2 --country US --format txt --output probes.old] *)
Definition args : Driver.namespace :=
  Driver.mk_namespace 1 2 (Some "US") None None None "txt" "probes.old".

(** The same with [--first-connected-after 2021-13-01]. *)
Definition args_bad_date : Driver.namespace :=
  Driver.mk_namespace 1 2 (Some "US") None (Some "2021-13-01") None "txt" "probes.old".

(** [--start-id 3 --end-id 5], on which the server of the scenarios answers 404. *)
Definition args_unknown : Driver.namespace :=
  Driver.mk_namespace 3 5 None None None None "csv" "filtered_probes".

(** A world that holds two files. *)
Definition two_files : world :=
  mk_world {["probes.txt" := "old text"; "notes.md" := "keep"]} [].

(** A body whose geometry is an object without coordinates, and its record. *)
Definition fields_no_coordinates : dict :=
  [("id", PInt 7); ("geometry", PDict [("type", PStr "Point")])].

Definition probe_no_coordinates : dict :=
  [("ID", PInt 7); ("IPv4", PStr "N/A"); ("ASN", PStr "N/A"); ("Pays", PStr "N/A");
   ("Longitude", PStr "N/A"); ("Latitude", PStr "N/A"); ("Status", PStr "Unknown");
   ("First Connected", PStr "N/A"); ("Last Connected", PStr "N/A");
   ("Tags", PStr "N/A")].

(** A record of France, connected, whose First Connected does not parse. *)
Definition probe_yesterday : dict :=
  [("Pays", PStr "FR"); ("Status", PStr "Connected");
   ("First Connected", PStr "yesterday")].

(** Record 2 without its Status. *)
Definition probe2_no_status : dict :=
  [("ID", PInt 2); ("IPv4", PStr "N/A"); ("ASN", PStr "N/A");
   ("Pays", PStr "US"); ("Longitude", PStr "N/A"); ("Latitude", PStr "N/A");
   ("First Connected", PStr "N/A"); ("Last Connected", PStr "N/A");
   ("Tags", PStr "N/A")].

End Cases.

(** * Properties *)

(** ** The filter *)

Example strptime_canonical :
  Strptime.strptime "2020-01-01 00:00:00" = Some (mk_datetime 2020 1 1 0 0 0 0).
Proof. reflexivity. Qed.

Example strptime_short_fields :
  Strptime.strptime "2020-1-1 0:0:7" = Some (mk_datetime 2020 1 1 0 0 7 0).
Proof. reflexivity. Qed.

Example strptime_rejects_marker : Strptime.strptime "N/A" = None.
Proof. reflexivity. Qed.

Example strptime_rejects_30_february :
  Strptime.strptime "2021-02-30 10:00:00" = None.
Proof. reflexivity. Qed.

Example strptime_rejects_leftover : Strptime.strptime "2021-02-03 10:00:75" = None.
Proof. reflexivity. Qed.

Example threshold_is_later :
  lt (mk_datetime 2020 1 1 0 0 0 0) Scenario.threshold = true.
Proof. reflexivity. Qed.

Section filter_facts.

Context {Ref : Type} (deref : Ref → dict) (strptime : string → option datetime).

Section fixed_criteria.

Variables (c : option string) (k : option bool) (f l : option datetime).

#[local] Abbreviation kept := (keeps deref strptime c k f l).
#[local] Abbreviation checked := (tested deref strptime c k f l).

Lemma filter_loop_returns probes filtered out :
  filter_loop deref strptime c k f l probes filtered = Ok out →
  Forall checked probes ∧ out = filtered ++ filter kept probes.
Proof.
  revert filtered. induction probes as [|p ps IH]; intros filtered; simpl.
  - intros [= <-]. by rewrite app_nil_r.
  - destruct (rejects strptime c k f l (deref p)) as [r|e] eqn:Hr; [|done].
    simpl. intros H. apply IH in H as [Hps ->]. split.
    + constructor; [by exists r|done].
    + destruct r.
      * rewrite filter_cons_False; [done|]. unfold keeps. by rewrite Hr.
      * rewrite filter_cons_True by done. by rewrite <- app_assoc.
Qed.

Lemma filter_loop_tested probes filtered :
  Forall checked probes →
  filter_loop deref strptime c k f l probes filtered
  = Ok (filtered ++ filter kept probes).
Proof.
  intros H. revert filtered. induction H as [|p ps [r Hr] _ IH]; intros filtered; simpl.
  - by rewrite app_nil_r.
  - rewrite Hr. simpl. rewrite IH. destruct r.
    + rewrite filter_cons_False; [done|]. unfold keeps. by rewrite Hr.
    + rewrite filter_cons_True by done. by rewrite <- app_assoc.
Qed.

Lemma filter_probes_returns probes out :
  filter_probes deref strptime probes c k f l = Ok out →
  Forall checked probes ∧ out = filter kept probes.
Proof. apply filter_loop_returns. Qed.

Lemma filter_probes_tested probes :
  Forall checked probes →
  filter_probes deref strptime probes c k f l = Ok (filter kept probes).
Proof. apply filter_loop_tested. Qed.

End fixed_criteria.
End filter_facts.

Section filter_stages.

Context {Ref : Type} (deref : Ref → dict) (strptime : string → option datetime).

Lemma rejects_first_true c k f l (probe : dict) :
  rejects strptime c k f l probe
  = first_true [country_rejects c probe; connected_rejects k probe;
                date_rejects strptime "First Connected" f probe;
                date_rejects strptime "Last Connected" l probe].
Proof.
  unfold rejects, first_true.
  destruct (country_rejects c probe) as [[]|]; simpl; [done| |done].
  destruct (connected_rejects k probe) as [[]|]; simpl; [done| |done].
  destruct (date_rejects strptime "First Connected" f probe) as [[]|]; simpl; [done| |done].
  by destruct (date_rejects strptime "Last Connected" l probe) as [[]|].
Qed.

Lemma filter_loop_no_criteria (probes filtered : list Ref) :
  filter_loop deref strptime None None None None probes filtered
  = Ok (filtered ++ probes).
Proof.
  revert filtered. induction probes as [|p ps IH]; intros filtered; simpl.
  - by rewrite app_nil_r.
  - rewrite IH. by rewrite <- app_assoc.
Qed.

Lemma eq_str_true v s : eq_str v s = true → v = PStr s.
Proof.
  destruct v; simpl; try done. intros H. by apply String.eqb_eq in H as ->.
Qed.

Lemma first_true_false (stages : list (result bool)) :
  first_true stages = Ok false ↔ Forall (λ stage, stage = Ok false) stages.
Proof.
  induction stages as [|[[]|] rest IH]; simpl.
  - split; [constructor|done].
  - split; [done|]. by intros [[=] _]%Forall_cons.
  - rewrite IH, Forall_cons. naive_solver.
  - split; [done|]. by intros [[=] _]%Forall_cons.
Qed.

Lemma keeps_stages c k f l (probe : Ref) :
  keeps deref strptime c k f l probe ↔
  country_rejects c (deref probe) = Ok false ∧
  connected_rejects k (deref probe) = Ok false ∧
  date_rejects strptime "First Connected" f (deref probe) = Ok false ∧
  date_rejects strptime "Last Connected" l (deref probe) = Ok false.
Proof.
  unfold keeps. rewrite rejects_first_true, first_true_false.
  rewrite !Forall_cons, Forall_nil. naive_solver.
Qed.

Lemma connected_rejects_false b (probe : dict) :
  connected_rejects (Some b) probe = Ok false ↔
  ∃ v, getitem probe "Status" = Ok v ∧ eq_str v "Connected" = b.
Proof.
  unfold connected_rejects.
  destruct (getitem probe "Status") as [v|]; simpl.
  - split.
    + intros [= H]. exists v. split; [done|].
      by destruct (eq_str v "Connected"), b.
    + intros (v' & [= <-] & <-). by destruct (eq_str v "Connected").
  - split; [done|]. by intros (v' & [=] & _).
Qed.

Lemma keeps_connected c b f l (probe : Ref) :
  keeps deref strptime c (Some b) f l probe →
  ∃ v, getitem (deref probe) "Status" = Ok v ∧ eq_str v "Connected" = b.
Proof. rewrite keeps_stages, connected_rejects_false. naive_solver. Qed.

Lemma date_rejects_false field t (probe : dict) :
  date_rejects strptime field (Some t) probe = Ok false →
  passes_date strptime field t probe.
Proof.
  unfold date_rejects, passes_date.
  destruct (getitem probe field) as [v|]; simpl; try done.
  destruct (eq_str v "N/A") eqn:Hv; simpl.
  - intros _. exists v. split; [done|]. left. by apply eq_str_true.
  - destruct (py_strptime strptime v) as [d|] eqn:Hd; simpl; [|done].
    intros [= Hlt]. exists v. split; [done|]. right. by exists d.
Qed.

Lemma keeps_first c k t l (probe : Ref) :
  keeps deref strptime c k (Some t) l probe →
  passes_date strptime "First Connected" t (deref probe).
Proof. rewrite keeps_stages. intros (_ & _ & H & _). by apply date_rejects_false. Qed.

Lemma keeps_last c k f t (probe : Ref) :
  keeps deref strptime c k f (Some t) probe →
  passes_date strptime "Last Connected" t (deref probe).
Proof. rewrite keeps_stages. intros (_ & _ & _ & H). by apply date_rejects_false. Qed.

Lemma date_rejects_marker field after (probe : dict) :
  getitem probe field = Ok (PStr "N/A") →
  date_rejects strptime field after probe = Ok false.
Proof. intros H. unfold date_rejects. destruct after; [|done]. by rewrite H. Qed.

Lemma first_true_merged (sa sb sm : list (result bool)) (x y : bool) :
  Forall3 merged sa sb sm →
  first_true sa = Ok x → first_true sb = Ok y → first_true sm = Ok (x || y).
Proof.
  intros H. revert x y.
  induction H as [|a b m sa sb sm Hm _ IH]; intros x y; simpl.
  - by intros [= <-] [= <-].
  - destruct Hm as [a b [->| ->]|b].
    + destruct a as [[]|]; simpl; [by intros [= <-]| |done]. apply IH.
    + destruct a as [[]|]; simpl; [by intros [= <-]| |done]. apply IH.
    + destruct b as [[]|]; simpl; [|apply IH|done].
      intros _ [= <-]. by rewrite orb_true_r.
Qed.

Lemma merged_stage {A : Type} (stage : option A → result bool) (a b : option A) :
  stage None = Ok false → agree a b → merged (stage a) (stage b) (stage (a ∪ b)).
Proof.
  intros Hidle Hab. destruct a as [u|], b as [v|].
  - rewrite (Hab u v) by done. apply merged_left. by right.
  - apply merged_left. by left.
  - change (None ∪ Some v) with (Some v). rewrite Hidle. apply merged_right.
  - change (None ∪ None) with (@None A). rewrite Hidle. apply merged_right.
Qed.

Lemma rejects_both (a b : criteria) (probe : dict) (x y : bool) :
  compatible a b →
  rejects strptime (country a) (connected a) (first_connected_after a)
    (last_connected_after a) probe = Ok x →
  rejects strptime (country b) (connected b) (first_connected_after b)
    (last_connected_after b) probe = Ok y →
  rejects strptime (country (both a b)) (connected (both a b))
    (first_connected_after (both a b)) (last_connected_after (both a b)) probe
  = Ok (x || y).
Proof.
  intros (Hc & Hk & Hf & Hl). rewrite !rejects_first_true.
  apply first_true_merged. simpl. repeat constructor.
  - by apply (merged_stage (λ c, country_rejects c probe)).
  - by apply (merged_stage (λ k, connected_rejects k probe)).
  - by apply (merged_stage (λ f, date_rejects strptime "First Connected" f probe)).
  - by apply (merged_stage (λ l, date_rejects strptime "Last Connected" l probe)).
Qed.

Lemma date_rejects_total field after (probe : dict) :
  date_field_ok strptime probe field →
  ∃ r, date_rejects strptime field after probe = Ok r.
Proof.
  intros (text & Hfield & Htext). unfold date_rejects, getitem.
  destruct after as [t|]; [|by eexists]. rewrite Hfield. simpl.
  destruct (String.eqb text "N/A") eqn:Hna; simpl; [by eexists|].
  destruct Htext as [->|[d Hd]]; [by rewrite String.eqb_refl in Hna|].
  rewrite Hd. by eexists.
Qed.

Lemma rejects_total c k f l (probe : Ref) :
  record_ok strptime (deref probe) → tested deref strptime c k f l probe.
Proof.
  intros ([pays Hpays] & [status Hstatus] & Hfirst & Hlast).
  destruct (date_rejects_total "First Connected" f _ Hfirst) as [r3 H3].
  destruct (date_rejects_total "Last Connected" l _ Hlast) as [r4 H4].
  unfold tested. rewrite rejects_first_true. simpl. rewrite H3, H4.
  unfold country_rejects, connected_rejects, getitem. rewrite Hpays, Hstatus.
  destruct c as [c|]; [destruct (truthy (PStr c))|]; simpl;
    try destruct (negb (eq_str pays c)); simpl; try by eexists.
  all: destruct k as [b|]; simpl;
    try destruct (xorb (eq_str status "Connected") b); simpl; try by eexists.
  all: destruct r3, r4; by eexists.
Qed.

End filter_stages.

Example scenario_country :
  filter_probes id Strptime.strptime Scenario.probes (Some "FR") None None None
  = Ok [Scenario.probe1].
Proof. reflexivity. Qed.

Example filter_raises_on_bad_date :
  filter_probes id Strptime.strptime
    [[("First Connected", PStr "yesterday")]] None None (Some Scenario.threshold) None
  = Raise ValueError.
Proof. reflexivity. Qed.

(** C9: with no criterion supplied the filter returns its input, element for
    element and in order. *)
Theorem filter_no_criteria_identity {Ref : Type} (deref : Ref → dict)
    (strptime : string → option datetime) (probes : list Ref) :
  filter_probes deref strptime probes None None None None = Ok probes.
Proof. unfold filter_probes. by rewrite filter_loop_no_criteria. Qed.

(** C7: filtering the result of the filter again, with the same criteria,
    gives the same result; when the first pass raises, so does the
    composition, with the same exception. *)
Theorem filter_idempotent {Ref : Type} (deref : Ref → dict)
    (strptime : string → option datetime) (probes : list Ref)
    (c : option string) (k : option bool) (f l : option datetime) :
  (filter_probes deref strptime probes c k f l
     ≫= λ out, filter_probes deref strptime out c k f l)
  = filter_probes deref strptime probes c k f l.
Proof.
  destruct (filter_probes deref strptime probes c k f l) as [out|e] eqn:H; [|done].
  simpl. apply filter_probes_returns in H as [_ ->].
  rewrite filter_probes_tested.
  - f_equal. by apply list_filter_filter_r.
  - apply Forall_forall. intros p [Hp _]%list_elem_of_filter. by exists false.
Qed.

Lemma filter_iff_on {A : Type} (P Q : A → Prop) `{!∀ x, Decision (P x)}
    `{!∀ x, Decision (Q x)} (l : list A) :
  (∀ x, x ∈ l → P x ↔ Q x) → filter P l = filter Q l.
Proof.
  induction l as [|x l IH]; intros Hiff; [done|].
  rewrite !filter_cons, IH by (intros y Hy; apply Hiff; by right).
  apply decide_ext, Hiff. by left.
Qed.

Lemma list_intersection_filter {A : Type} `{EqDecision A} (P Q : A → Prop)
    `{!∀ x, Decision (P x)} `{!∀ x, Decision (Q x)} (l : list A) :
  list_intersection (filter P l) (filter Q l) = filter (λ x, P x ∧ Q x) l.
Proof.
  assert (∀ m k : list A, list_intersection m k = filter (λ x, x ∈ k) m) as ->.
  { intros m k. induction m as [|x m IH]; [done|]. simpl. rewrite filter_cons, IH.
    by destruct (decide_rel elem_of x k), (decide (x ∈ k)). }
  rewrite list_filter_filter. apply filter_iff_on.
  intros x Hx. rewrite list_elem_of_filter. naive_solver.
Qed.

(** C8: with [connected] supplied as [b], every record of the output has a
    Status that compares to "Connected" as [b] says, whatever the other
    criteria; with no other criterion and records that have a Status, the
    output is exactly the records of that state, so no record passes through
    both or neither; on the records of scenario 2, [True] keeps record 1 and
    [False] keeps record 2. *)
Theorem connected_criterion :
  (∀ (Ref : Type) (deref : Ref → dict) (strptime : string → option datetime)
     (probes : list Ref) (c : option string) (b : bool) (f l : option datetime)
     (out : list Ref),
     filter_probes deref strptime probes c (Some b) f l = Ok out →
     Forall (λ p, ∃ v, getitem (deref p) "Status" = Ok v ∧
                       eq_str v "Connected" = b) out) ∧
  (∀ (Ref : Type) (deref : Ref → dict) (strptime : string → option datetime)
     (probes : list Ref) (b : bool),
     Forall (λ p, is_Some (dict_lookup (deref p) "Status")) probes →
     filter_probes deref strptime probes None (Some b) None None
     = Ok (filter (λ p, status_is_connected (deref p) = b) probes)) ∧
  filter_probes id Strptime.strptime Scenario.probes None (Some true) None None
  = Ok [Scenario.probe1] ∧
  filter_probes id Strptime.strptime Scenario.probes None (Some false) None None
  = Ok [Scenario.probe2].
Proof.
  split; [|split; [|done]].
  - intros Ref deref strptime probes c b f l out [_ ->]%filter_probes_returns.
    apply Forall_forall. intros p [Hp _]%list_elem_of_filter.
    by eapply keeps_connected.
  - intros Ref deref strptime probes b Hs.
    rewrite filter_probes_tested.
    + f_equal. apply filter_iff_on. intros p Hp.
      rewrite Forall_forall in Hs. destruct (Hs p Hp) as [v Hv].
      rewrite keeps_stages, connected_rejects_false.
      unfold status_is_connected, getitem, date_rejects, country_rejects.
      rewrite Hv. split.
      * by intros (_ & (v' & [= <-] & H) & _).
      * intros H. repeat split; try done. by exists v.
    + apply Forall_forall. intros p Hp.
      rewrite Forall_forall in Hs. destruct (Hs p Hp) as [v Hv].
      unfold tested, rejects, country_rejects, connected_rejects, getitem.
      rewrite Hv. simpl. destruct (xorb (eq_str v "Connected") b); by eexists.
Qed.

(** Scenario 2 as an instance of both general parts. *)
Lemma connected_criterion_witness :
  filter_probes id Strptime.strptime Scenario.probes None (Some true) None None
  = Ok [Scenario.probe1] ∧
  Forall (λ p, ∃ v, getitem (id p) "Status" = Ok v ∧ eq_str v "Connected" = true)
    [Scenario.probe1] ∧
  Forall (λ p, is_Some (dict_lookup (id p) "Status")) Scenario.probes ∧
  filter_probes id Strptime.strptime Scenario.probes None (Some false) None None
  = Ok (filter (λ p, status_is_connected (id p) = false) Scenario.probes).
Proof.
  assert (Forall (λ p, is_Some (dict_lookup (id p) "Status")) Scenario.probes)
    as Hstatus by (repeat constructor; by eexists).
  split; [reflexivity|]. split; [|split; [exact Hstatus|]].
  - apply (proj1 connected_criterion dict id Strptime.strptime Scenario.probes
             None true None None).
    reflexivity.
  - exact (proj1 (proj2 connected_criterion) dict id Strptime.strptime
             Scenario.probes false Hstatus).
Defined.

(** C1, as stated, fails on scenario 3: the record whose First Connected is
    the marker "N/A" is kept, so the result is not the empty list. *)
Lemma date_threshold_marker_counterexample :
  getitem Scenario.probe2 "First Connected" = Ok (PStr "N/A") ∧
  filter_probes id Strptime.strptime Scenario.probes None None
    (Some Scenario.threshold) None = Ok [Scenario.probe2] ∧
  filter_probes id Strptime.strptime Scenario.probes None None
    (Some Scenario.threshold) None ≠ Ok [].
Proof. split; [reflexivity|]. split; [reflexivity|discriminate]. Qed.

(** C1, amended: with first_connected_after supplied, every record of the
    output has a First Connected that is the marker "N/A" or parses to a time
    not earlier than the threshold, so a record whose time is earlier is
    excluded; a record whose field is the marker is kept by this criterion,
    not excluded; the same holds of last_connected_after and Last Connected;
    on scenario 3 the result is the record with id 2. *)
Theorem date_threshold_keeps_marker :
  (∀ (Ref : Type) (deref : Ref → dict) (strptime : string → option datetime)
     (probes : list Ref) (c : option string) (k : option bool) (t : datetime)
     (l : option datetime) (out : list Ref),
     filter_probes deref strptime probes c k (Some t) l = Ok out →
     Forall (λ p, passes_date strptime "First Connected" t (deref p)) out) ∧
  (∀ (Ref : Type) (deref : Ref → dict) (strptime : string → option datetime)
     (probes : list Ref) (c : option string) (k : option bool)
     (f : option datetime) (t : datetime) (out : list Ref),
     filter_probes deref strptime probes c k f (Some t) = Ok out →
     Forall (λ p, passes_date strptime "Last Connected" t (deref p)) out) ∧
  (∀ (Ref : Type) (deref : Ref → dict) (strptime : string → option datetime)
     (probes : list Ref) (t : datetime) (out : list Ref) (p : Ref),
     filter_probes deref strptime probes None None (Some t) None = Ok out →
     p ∈ probes → getitem (deref p) "First Connected" = Ok (PStr "N/A") →
     p ∈ out) ∧
  (∀ (Ref : Type) (deref : Ref → dict) (strptime : string → option datetime)
     (probes : list Ref) (t : datetime) (out : list Ref) (p : Ref),
     filter_probes deref strptime probes None None None (Some t) = Ok out →
     p ∈ probes → getitem (deref p) "Last Connected" = Ok (PStr "N/A") →
     p ∈ out) ∧
  filter_probes id Strptime.strptime Scenario.probes None None
    (Some Scenario.threshold) None = Ok [Scenario.probe2].
Proof.
  repeat split.
  - intros Ref deref strptime probes c k t l out [_ ->]%filter_probes_returns.
    apply Forall_forall. intros p [Hp _]%list_elem_of_filter.
    by eapply keeps_first.
  - intros Ref deref strptime probes c k f t out [_ ->]%filter_probes_returns.
    apply Forall_forall. intros p [Hp _]%list_elem_of_filter.
    by eapply keeps_last.
  - intros Ref deref strptime probes t out p [_ ->]%filter_probes_returns Hp Hna.
    apply list_elem_of_filter. split; [|done].
    apply keeps_stages. repeat split; try done. by apply date_rejects_marker.
  - intros Ref deref strptime probes t out p [_ ->]%filter_probes_returns Hp Hna.
    apply list_elem_of_filter. split; [|done].
    apply keeps_stages. repeat split; try done. by apply date_rejects_marker.
Qed.

(** Scenario 3 as an instance: record 2 holds the marker and is kept. *)
Lemma date_threshold_keeps_marker_witness :
  filter_probes id Strptime.strptime Scenario.probes None None
    (Some Scenario.threshold) None = Ok [Scenario.probe2] ∧
  Scenario.probe2 ∈ Scenario.probes ∧
  getitem (id Scenario.probe2) "First Connected" = Ok (PStr "N/A") ∧
  Scenario.probe2 ∈ [Scenario.probe2] ∧
  Forall (λ p, passes_date Strptime.strptime "First Connected" Scenario.threshold (id p))
    [Scenario.probe2] ∧
  filter_probes id Strptime.strptime Scenario.probes None None None
    (Some Scenario.threshold) = Ok Scenario.probes ∧
  getitem (id Scenario.probe2) "Last Connected" = Ok (PStr "N/A") ∧
  Scenario.probe2 ∈ Scenario.probes ∧
  Forall (λ p, passes_date Strptime.strptime "Last Connected" Scenario.threshold (id p))
    Scenario.probes.
Proof.
  assert (filter_probes id Strptime.strptime Scenario.probes None None
            (Some Scenario.threshold) None = Ok [Scenario.probe2]) as Hfirst
    by reflexivity.
  assert (filter_probes id Strptime.strptime Scenario.probes None None None
            (Some Scenario.threshold) = Ok Scenario.probes) as Hlast
    by reflexivity.
  assert (Scenario.probe2 ∈ Scenario.probes) as Hin
    by (unfold Scenario.probes; apply list_elem_of_further, list_elem_of_here).
  destruct date_threshold_keeps_marker as (Hf & Hl & Hfm & Hlm & _).
  split; [exact Hfirst|]. split; [exact Hin|]. split; [reflexivity|]. split.
  { exact (Hfm dict id Strptime.strptime Scenario.probes Scenario.threshold
             [Scenario.probe2] Scenario.probe2 Hfirst Hin eq_refl). }
  split.
  { exact (Hf dict id Strptime.strptime Scenario.probes None None Scenario.threshold
             None [Scenario.probe2] Hfirst). }
  split; [exact Hlast|]. split; [reflexivity|]. split.
  { exact (Hlm dict id Strptime.strptime Scenario.probes Scenario.threshold
             Scenario.probes Scenario.probe2 Hlast Hin eq_refl). }
  exact (Hl dict id Strptime.strptime Scenario.probes None None None
           Scenario.threshold Scenario.probes Hlast).
Defined.

(** C2: when two sets of criteria that can be supplied together each give a
    result on their own, supplying both gives the records of the first result
    that are also in the second, in the order of the input; records are
    compared by identity, as references.  On records as the fetcher makes
    them every filtering gives a result, so the equation holds of the three
    results. *)
Theorem filter_conjunction :
  (∀ (Ref : Type) (eq_dec : EqDecision Ref) (deref : Ref → dict)
     (strptime : string → option datetime) (probes : list Ref) (a b : criteria)
     (la lb : list Ref),
     compatible a b →
     filter_by deref strptime probes a = Ok la →
     filter_by deref strptime probes b = Ok lb →
     filter_by deref strptime probes (both a b) = Ok (list_intersection la lb)) ∧
  (∀ (Ref : Type) (eq_dec : EqDecision Ref) (deref : Ref → dict)
     (strptime : string → option datetime) (probes : list Ref) (a b : criteria),
     compatible a b →
     Forall (λ p, record_ok strptime (deref p)) probes →
     ∃ la lb,
       filter_by deref strptime probes a = Ok la ∧
       filter_by deref strptime probes b = Ok lb ∧
       filter_by deref strptime probes (both a b) = Ok (list_intersection la lb)).
Proof.
  assert (∀ (Ref : Type) (eq_dec : EqDecision Ref) (deref : Ref → dict)
     (strptime : string → option datetime) (probes : list Ref) (a b : criteria)
     (la lb : list Ref),
     compatible a b →
     filter_by deref strptime probes a = Ok la →
     filter_by deref strptime probes b = Ok lb →
     filter_by deref strptime probes (both a b) = Ok (list_intersection la lb))
    as Hgeneral.
  { intros Ref ? deref strptime probes a b la lb. unfold filter_by.
    intros Hab [Ha ->]%filter_probes_returns [Hb ->]%filter_probes_returns.
    rewrite Forall_forall in Ha, Hb.
    rewrite filter_probes_tested.
    - f_equal. rewrite list_intersection_filter. apply filter_iff_on.
      intros p Hp. destruct (Ha p Hp) as [x Hx], (Hb p Hp) as [y Hy].
      unfold keeps. rewrite (rejects_both strptime a b _ x y Hab Hx Hy), Hx, Hy.
      destruct x, y; naive_solver.
    - apply Forall_forall. intros p Hp.
      destruct (Ha p Hp) as [x Hx], (Hb p Hp) as [y Hy].
      exists (x || y). by apply rejects_both. }
  split; [exact Hgeneral|].
  intros Ref ? deref strptime probes a b Hab Hok.
  assert (∀ c, ∃ out, filter_by deref strptime probes c = Ok out) as Htotal.
  { intros c. eexists. unfold filter_by. apply filter_probes_tested.
    eapply Forall_impl; [exact Hok|]. intros p. apply rejects_total. }
  destruct (Htotal a) as [la Ha], (Htotal b) as [lb Hb].
  exists la, lb. split; [done|]. split; [done|]. by apply Hgeneral.
Qed.

(** The two records, each named twice, filtered by country, by date and by
    status, alone and together. *)
Lemma filter_conjunction_witness :
  compatible Scenario.by_country Scenario.by_date ∧
  Forall (λ p, record_ok Strptime.strptime (Scenario.store p)) Scenario.addresses ∧
  filter_by Scenario.store Strptime.strptime Scenario.addresses Scenario.by_country
  = Ok [0; 0]%nat ∧
  filter_by Scenario.store Strptime.strptime Scenario.addresses Scenario.by_date
  = Ok [1; 1]%nat ∧
  filter_by Scenario.store Strptime.strptime Scenario.addresses Scenario.by_status
  = Ok [0; 0]%nat ∧
  filter_by Scenario.store Strptime.strptime Scenario.addresses
    (both Scenario.by_country Scenario.by_date) = Ok [] ∧
  filter_by Scenario.store Strptime.strptime Scenario.addresses
    (both Scenario.by_country Scenario.by_status) = Ok [0; 0]%nat ∧
  ∃ la lb,
    filter_by Scenario.store Strptime.strptime Scenario.addresses Scenario.by_country
    = Ok la ∧
    filter_by Scenario.store Strptime.strptime Scenario.addresses Scenario.by_date
    = Ok lb ∧
    filter_by Scenario.store Strptime.strptime Scenario.addresses
      (both Scenario.by_country Scenario.by_date) = Ok (list_intersection la lb).
Proof.
  assert (compatible Scenario.by_country Scenario.by_date) as Hcd
    by (repeat split; intros u v; discriminate).
  assert (compatible Scenario.by_country Scenario.by_status) as Hcs
    by (repeat split; intros u v; discriminate).
  assert (record_ok Strptime.strptime Scenario.probe1) as H1.
  { split; [by eexists|]. split; [by eexists|]. split.
    - eexists. split; [reflexivity|]. right. by eexists.
    - eexists. split; [reflexivity|]. by left. }
  assert (record_ok Strptime.strptime Scenario.probe2) as H2.
  { split; [by eexists|]. split; [by eexists|]. split.
    - eexists. split; [reflexivity|]. by left.
    - eexists. split; [reflexivity|]. by left. }
  assert (Forall (λ p, record_ok Strptime.strptime (Scenario.store p))
            Scenario.addresses) as Hok
    by (do 2 (constructor; [exact H2|]; constructor; [exact H1|]); constructor).
  split; [exact Hcd|]. split; [exact Hok|]. do 3 (split; [reflexivity|]).
  split; [|split].
  - exact (proj1 filter_conjunction nat _ Scenario.store Strptime.strptime
             Scenario.addresses Scenario.by_country Scenario.by_date
             [0; 0]%nat [1; 1]%nat Hcd eq_refl eq_refl).
  - exact (proj1 filter_conjunction nat _ Scenario.store Strptime.strptime
             Scenario.addresses Scenario.by_country Scenario.by_status
             [0; 0]%nat [0; 0]%nat Hcs eq_refl eq_refl).
  - exact (proj2 filter_conjunction nat _ Scenario.store Strptime.strptime
             Scenario.addresses Scenario.by_country Scenario.by_date Hcd Hok).
Defined.

(** ** The fetcher *)

Section fetcher_facts.

Variable requests_get : string → result response.
Variable fromtimestamp_strftime : pyval → result string.

#[local] Abbreviation get_probe_info := (get_probe_info requests_get fromtimestamp_strftime).
#[local] Abbreviation main_loop := (main_loop requests_get fromtimestamp_strftime).
#[local] Abbreviation probe_record := (probe_record fromtimestamp_strftime).
#[local] Abbreviation format_timestamp := (format_timestamp fromtimestamp_strftime).

Lemma main_loop_app (ids1 ids2 : list Z) (probes : list dict) :
  main_loop (ids1 ++ ids2) probes = main_loop ids1 probes ≫= main_loop ids2.
Proof.
  revert probes. induction ids1 as [|i ids1 IH]; intros probes; simpl; [done|].
  destruct (get_probe_info i); simpl; [apply IH|done].
Qed.

Lemma get_probe_info_non_200 (probe_id : Z) (resp : response) :
  requests_get (API_URL_format (pretty probe_id)) = Ok resp →
  status_code resp ≠ 200 →
  get_probe_info probe_id = Ok None.
Proof.
  intros Hget Hstatus. unfold Fetcher.get_probe_info. rewrite Hget. simpl.
  by apply Z.eqb_neq in Hstatus as ->.
Qed.

Lemma range_split (a i b : Z) :
  a ≤ i < b → range a b = range a i ++ i :: range (i + 1) b.
Proof.
  intros H. unfold range.
  replace (b - a) with ((i - a) + (b - i)) by lia.
  rewrite seqZ_app by lia. f_equal.
  replace (a + (i - a)) with i by lia.
  rewrite seqZ_cons by lia. f_equal. f_equal; lia.
Qed.

Lemma probe_record_inv (data : pyval) (r : dict) :
  probe_record data = Ok r →
  ∃ d lon lat st first last tags,
    data = PDict d ∧
    geometry_coordinates (default PNone (dict_lookup d "geometry")) = Ok (lon, lat) ∧
    get (default (PDict []) (dict_lookup d "status")) "name" (PStr "Unknown") = Ok st ∧
    format_timestamp (default PNone (dict_lookup d "first_connected")) = Ok first ∧
    format_timestamp (default PNone (dict_lookup d "last_connected")) = Ok last ∧
    tags_field data = Ok tags ∧
    r = [("ID", default NA (dict_lookup d "id"));
         ("IPv4", default NA (dict_lookup d "address_v4"));
         ("ASN", default NA (dict_lookup d "asn_v4"));
         ("Pays", default NA (dict_lookup d "country_code"));
         ("Longitude", lon); ("Latitude", lat); ("Status", st);
         ("First Connected", first); ("Last Connected", last); ("Tags", tags)].
Proof.
  unfold Fetcher.probe_record.
  destruct data as [| | | | |?|d]; try done. simpl.
  destruct (geometry_coordinates _) as [[lon lat]|] eqn:Hg; [|done]. simpl.
  destruct (get (default (PDict []) _) "name" _) as [st|] eqn:Hst; [|done]. simpl.
  destruct (Fetcher.format_timestamp _ (default PNone (dict_lookup d "first_connected")))
    as [first|] eqn:Hf; [|done]. simpl.
  destruct (Fetcher.format_timestamp _ (default PNone (dict_lookup d "last_connected")))
    as [last|] eqn:Hl; [|done]. simpl.
  destruct (tags_field (PDict d)) as [tags|] eqn:Ht; [|done]. simpl.
  intros [= <-]. by exists d, lon, lat, st, first, last, tags.
Qed.

Lemma main_loop_records (ids : list Z) (probes out : list dict) :
  main_loop ids probes = Ok out →
  ∀ r, r ∈ out → r ∈ probes ∨ ∃ j, j ∈ ids ∧ get_probe_info j = Ok (Some r).
Proof.
  revert probes. induction ids as [|i ids IH]; intros probes; simpl.
  - intros [= <-] r Hr. by left.
  - destruct (get_probe_info i) as [info|] eqn:Hi; simpl; [|done].
    intros H r Hr. destruct (IH _ H r Hr) as [Hin|(j & Hj & Hget)].
    + destruct info as [record|]; [|by left].
      destruct record as [|item record]; [by left|].
      apply elem_of_app in Hin as [Hin|Hin%list_elem_of_singleton]; [by left|].
      subst r. right. exists i. split; [by left|done].
    + right. exists j. split; [by right|done].
Qed.

Lemma get_probe_info_some (j : Z) (r : dict) :
  get_probe_info j = Ok (Some r) →
  ∃ resp data, requests_get (API_URL_format (pretty j)) = Ok resp ∧
               status_code resp = 200 ∧ json resp = Ok data ∧
               probe_record data = Ok r.
Proof.
  unfold Fetcher.get_probe_info.
  destruct (requests_get _) as [resp|]; simpl; [|done].
  destruct (status_code resp =? 200) eqn:Hs; [|done].
  destruct (json resp) as [data|] eqn:Hd; simpl; [|done].
  destruct (probe_record data) as [record|] eqn:Hr; simpl; [|done].
  intros [= <-]. exists resp, data. by apply Z.eqb_eq in Hs.
Qed.

End fetcher_facts.

(** C3: when the response to the request for [probe_id] has a status other
    than 200, [get_probe_info] returns [None] and raises nothing; the loop of
    the driver then ends with the list it would have without that identifier,
    in any list of identifiers and in the range of [main]; and when the
    server answers each request with the probe asked for, no record of the
    list the driver accumulates has that identifier as its ID. *)
Theorem non_200_is_skipped (requests_get : string → result response)
    (fromtimestamp_strftime : pyval → result string) (probe_id : Z)
    (resp : response) :
  requests_get (API_URL_format (pretty probe_id)) = Ok resp →
  status_code resp ≠ 200 →
  get_probe_info requests_get fromtimestamp_strftime probe_id = Ok None ∧
  (∀ (before after : list Z) (probes : list dict),
     main_loop requests_get fromtimestamp_strftime (before ++ probe_id :: after) probes
     = main_loop requests_get fromtimestamp_strftime (before ++ after) probes) ∧
  (∀ start_id end_id : Z,
     start_id ≤ probe_id ≤ end_id →
     collect_probes requests_get fromtimestamp_strftime start_id end_id
     = main_loop requests_get fromtimestamp_strftime
         (range start_id probe_id ++ range (probe_id + 1) (end_id + 1)) []) ∧
  (honest requests_get →
   ∀ (start_id end_id : Z) (out : list dict) (r : dict),
     collect_probes requests_get fromtimestamp_strftime start_id end_id = Ok out →
     r ∈ out → getitem r "ID" ≠ Ok (PInt probe_id)).
Proof.
  intros Hget Hstatus.
  pose proof (get_probe_info_non_200 _ fromtimestamp_strftime _ _ Hget Hstatus) as Hnone.
  assert (∀ before after probes,
    main_loop requests_get fromtimestamp_strftime (before ++ probe_id :: after) probes
    = main_loop requests_get fromtimestamp_strftime (before ++ after) probes) as Hskip.
  { intros before after probes. rewrite !main_loop_app.
    destruct (main_loop _ _ before probes) as [acc|]; [|done].
    simpl. by rewrite Hnone. }
  split; [done|]. split; [done|]. split.
  - intros start_id end_id Hrange. unfold collect_probes.
    rewrite (range_split start_id probe_id (end_id + 1)) by lia. apply Hskip.
  - intros Hhonest start_id end_id out r Hout Hr HID.
    destruct (main_loop_records _ _ _ _ _ Hout r Hr) as [Hin|(j & _ & Hj)].
    { by apply elem_of_nil in Hin. }
    apply get_probe_info_some in Hj as (resp' & data & Hget' & Hs' & Hdata & Hrec).
    destruct (Hhonest j resp' data Hget' Hs' Hdata) as (d & -> & Hid).
    apply probe_record_inv in Hrec
      as (d' & lon & lat & st & first & last & tags & [= <-] & _ & _ & _ & _ & _ & ->).
    unfold getitem in HID. simpl in HID. rewrite Hid in HID. simpl in HID.
    injection HID as ->. rewrite Hget in Hget'. by injection Hget' as <-.
Qed.

Lemma scenario_server_honest : honest Scenario.server.
Proof.
  intros j resp data. unfold Scenario.server, API_URL_format.
  destruct (String.eqb_spec ("https://atlas.ripe.net/api/v2/probes/" +:+ pretty j)
              "https://atlas.ripe.net/api/v2/probes/1") as [H1|_].
  - change "https://atlas.ripe.net/api/v2/probes/1"
      with ("https://atlas.ripe.net/api/v2/probes/" +:+ "1") in H1.
    apply (inj (String.app _)) in H1. change "1" with (pretty 1) in H1.
    apply (inj pretty) in H1 as ->.
    intros [= <-] _ [= <-]. by eexists.
  - destruct (String.eqb_spec ("https://atlas.ripe.net/api/v2/probes/" +:+ pretty j)
                "https://atlas.ripe.net/api/v2/probes/2") as [H2|_].
    + change "https://atlas.ripe.net/api/v2/probes/2"
        with ("https://atlas.ripe.net/api/v2/probes/" +:+ "2") in H2.
      apply (inj (String.app _)) in H2. change "2" with (pretty 2) in H2.
      apply (inj pretty) in H2 as ->.
      intros [= <-] _ [= <-]. by eexists.
    + by intros [= <-].
Qed.

(** The server of the scenarios answers 404 for probe 3: the driver's list
    over 1..4 is the one over 1, 2 and 4, and none of its records has 3 as
    its ID. *)
Lemma non_200_is_skipped_witness :
  Scenario.server (API_URL_format (pretty 3)) = Ok Scenario.not_found ∧
  status_code Scenario.not_found ≠ 200 ∧
  get_probe_info Scenario.server Scenario.paris_time 3 = Ok None ∧
  collect_probes Scenario.server Scenario.paris_time 1 4
  = main_loop Scenario.server Scenario.paris_time (range 1 3 ++ range 4 5) [] ∧
  collect_probes Scenario.server Scenario.paris_time 1 4
  = Ok [Scenario.probe1; Scenario.probe2] ∧
  ∀ r, r ∈ [Scenario.probe1; Scenario.probe2] → getitem r "ID" ≠ Ok (PInt 3).
Proof.
  assert (status_code Scenario.not_found ≠ 200) as Hstatus by discriminate.
  split; [reflexivity|]. split; [exact Hstatus|].
  destruct (non_200_is_skipped Scenario.server Scenario.paris_time 3
              Scenario.not_found eq_refl Hstatus) as (Hnone & _ & Hrange & Hid).
  split; [exact Hnone|]. split; [apply (Hrange 1 4); lia|].
  split; [reflexivity|].
  intros r. exact (Hid scenario_server_honest 1 4 [Scenario.probe1; Scenario.probe2]
                     r eq_refl).
Defined.

Example driver_collects_scenario :
  collect_probes Scenario.server Scenario.paris_time 1 4
  = Ok [Scenario.probe1; Scenario.probe2].
Proof. reflexivity. Qed.

Section record_facts.

Variable fromtimestamp_strftime : pyval → result string.

Lemma format_timestamp_string (ts first : pyval) :
  format_timestamp fromtimestamp_strftime ts = Ok first →
  (truthy ts = false → first = PStr "N/A") ∧ ∃ text, first = PStr text.
Proof.
  unfold format_timestamp. destruct (truthy ts).
  - destruct (fromtimestamp_strftime ts) as [s|]; simpl; [|done].
    intros [= <-]. split; [done|by exists s].
  - intros [= <-]. split; [done|by exists "N/A"].
Qed.

Lemma tags_field_string (d : dict) (tags : pyval) :
  tags_field (PDict d) = Ok tags →
  (truthy (default PNone (dict_lookup d "tags")) = false → tags = PStr "N/A") ∧
  ∃ text, tags = PStr text.
Proof.
  unfold tags_field. simpl. destruct (truthy (default PNone (dict_lookup d "tags"))).
  - destruct (iterate _) as [items|]; simpl; [|done].
    destruct (mapM _ items) as [names|]; simpl; [|done].
    destruct (join ", " names) as [joined|]; simpl; [|done].
    intros [= <-]. split; [done|by exists joined].
  - intros [= <-]. split; [done|by exists "N/A"].
Qed.

Lemma geometry_coordinates_falsy (geometry lon lat : pyval) :
  geometry_coordinates geometry = Ok (lon, lat) →
  truthy geometry = false → lon = PStr "N/A" ∧ lat = PStr "N/A".
Proof. unfold geometry_coordinates. intros H Hg. rewrite Hg in H. by injection H as <- <-. Qed.

Lemma status_name_default (d : dict) (st : pyval) :
  get (default (PDict []) (dict_lookup d "status")) "name" (PStr "Unknown") = Ok st →
  dict_lookup (default [] (match dict_lookup d "status" with
                           | Some (PDict sd) => Some sd
                           | _ => None
                           end)) "name" = None →
  st = PStr "Unknown".
Proof.
  destruct (dict_lookup d "status") as [[| | | | | |sd]|]; simpl; try done.
  - intros [= <-] ->. done.
  - by intros [= <-].
Qed.

Lemma geometry_coordinates_inv (geometry lon lat : pyval) :
  geometry_coordinates geometry = Ok (lon, lat) →
  (lon = PStr "N/A" ∧ lat = PStr "N/A") ∨
  ∃ gd c, geometry = PDict gd ∧ dict_lookup gd "coordinates" = Some c ∧
          unpack2 c = Ok (lon, lat).
Proof.
  unfold geometry_coordinates. destruct (truthy geometry); [|intros [= <- <-]; by left].
  destruct geometry as [|b|z|x|s|items|gd]; try done; cbn [contains_str mbind result_bind].
  - destruct (is_substring "coordinates" s); [done|intros [= <- <-]; by left].
  - destruct (existsb _ items); [done|intros [= <- <-]; by left].
  - destruct (dict_lookup gd "coordinates") as [c|] eqn:Hc.
    + rewrite bool_decide_true by by eexists.
      unfold subscript_str, getitem. rewrite Hc. cbn [mbind result_bind].
      intros H. right. by exists gd, c.
    + rewrite bool_decide_false by by intros [? ?].
      intros [= <- <-]. by left.
Qed.

(** Unpacking gives [None] only from a list that holds it: the characters of
    a text and the keys of an object are text. *)
Lemma unpack2_null (c lon lat : pyval) :
  unpack2 c = Ok (lon, lat) → lon = PNone ∨ lat = PNone → c = PList [lon; lat].
Proof.
  unfold unpack2. destruct c as [|b|z|x|s|items|cd]; try done; simpl.
  - destruct (codepoints s) as [|a [|b [|? ?]]]; try done.
    simpl. intros [= <- <-] [|]; discriminate.
  - destruct items as [|a [|b [|? ?]]]; try done. by intros [= <- <-].
  - destruct (dict_keys cd) as [|a [|b [|? ?]]]; try done.
    simpl. intros [= <- <-] [|]; discriminate.
Qed.

Lemma geometry_default_object (d gd : dict) :
  default PNone (dict_lookup d "geometry") = PDict gd →
  dict_lookup d "geometry" = Some (PDict gd).
Proof. destruct (dict_lookup d "geometry"); simpl; [by intros ->|done]. Qed.

Lemma status_name_given (d sd : dict) (st v : pyval) :
  get (default (PDict []) (dict_lookup d "status")) "name" (PStr "Unknown") = Ok st →
  dict_lookup d "status" = Some (PDict sd) → dict_lookup sd "name" = Some v →
  st = v.
Proof. intros H Hs Hv. rewrite Hs in H. simpl in H. rewrite Hv in H. by injection H. Qed.

Lemma status_name_cases (d : dict) (st : pyval) :
  get (default (PDict []) (dict_lookup d "status")) "name" (PStr "Unknown") = Ok st →
  st = PStr "Unknown" ∨
  ∃ sd, dict_lookup d "status" = Some (PDict sd) ∧ dict_lookup sd "name" = Some st.
Proof.
  destruct (dict_lookup d "status") as [[| | | | | |sd]|]; simpl; try done.
  - destruct (dict_lookup sd "name") as [v|] eqn:Hv; simpl; intros [= <-].
    + right. by exists sd.
    + by left.
  - intros [= <-]. by left.
Qed.

Lemma populated_text (r : dict) (field text : string) :
  getitem r field = Ok (PStr text) → populated r field.
Proof.
  unfold getitem, populated. destruct (dict_lookup r field) as [v|]; [|done].
  intros [= ->]. by eexists.
Qed.

Lemma plain_field_populated (d r : dict) (field key : string) :
  (field, key) ∈ plain_fields →
  getitem r field = Ok (default NA (dict_lookup d key)) →
  populated r field ∨ null_given d field.
Proof.
  intros Hin Hr. unfold getitem in Hr.
  destruct (dict_lookup r field) as [v|] eqn:Hv; [|done]. injection Hr as ->.
  destruct (dict_lookup d key) as [[| | | | | |]|] eqn:Hd;
    try (left; eexists; by split).
  right. left. by exists key.
Qed.

Lemma probe_record_defaulted (data : pyval) (r : dict) :
  probe_record fromtimestamp_strftime data = Ok r →
  r.*1 = field_names ∧ ∃ d, data = PDict d ∧ defaulted d r.
Proof.
  intros (d & lon & lat & st & first & last & tags & -> & Hg & Hst & Hf & Hl & Ht & ->)
    %probe_record_inv.
  split; [done|]. exists d. split; [done|].
  apply format_timestamp_string in Hf as [Hf1 [tf Hf2]].
  apply format_timestamp_string in Hl as [Hl1 [tl Hl2]].
  apply tags_field_string in Ht as [Ht1 [tt Ht2]].
  pose proof (geometry_coordinates_inv _ _ _ Hg) as Hcoord.
  refine (conj _ (conj _ (conj _ (conj _ (conj _ (conj _ (conj _ (conj _ (conj _
            (conj _ (conj _ _))))))))))).
  - intros field key H. unfold plain_fields in H. split.
    + intros Hnone.
      repeat (apply elem_of_cons in H as [[= -> ->]|H]; [by rewrite Hnone|]).
      by apply elem_of_nil in H.
    + intros v [Hv _].
      repeat (apply elem_of_cons in H as [[= -> ->]|H]; [by rewrite Hv|]).
      by apply elem_of_nil in H.
  - intros H. by destruct (geometry_coordinates_falsy _ _ _ Hg H) as [-> ->].
  - intros gd Hgd Hnone.
    destruct Hcoord as [[-> ->]|(gd' & c & Hgd' & Hc & _)]; [done|].
    apply geometry_default_object in Hgd'. congruence.
  - intros Hno. destruct Hcoord as [[-> ->]|(gd & c & Hgd & Hc & _)]; [done|].
    apply geometry_default_object in Hgd. destruct Hno. by exists gd, c.
  - intros gd x y Hgd Hc. rewrite Hgd in Hg. simpl in Hg.
    destruct Hcoord as [[-> ->]|(gd' & c & Hgd' & Hc' & Hpair)].
    + destruct gd as [|item gd]; [done|].
      unfold geometry_coordinates in Hg.
      change (truthy (PDict (item :: gd))) with true in Hg. cbv iota in Hg.
      unfold contains_str, subscript_str, getitem in Hg. rewrite Hc in Hg.
      rewrite bool_decide_true in Hg by by eexists.
      simpl in Hg. by injection Hg as <- <-.
    + apply geometry_default_object in Hgd'.
      assert (gd' = gd) as -> by congruence.
      assert (c = PList [x; y]) as -> by congruence.
      simpl in Hpair. by injection Hpair as <- <-.
  - intros H. by rewrite (status_name_default _ _ Hst H).
  - intros sd v Hs Hv. by rewrite (status_name_given _ _ _ _ Hst Hs Hv).
  - intros H. by rewrite (Hf1 H).
  - intros H. by rewrite (Hl1 H).
  - intros H. by rewrite (Ht1 H).
  - intros field H. subst first last tags.
    repeat (apply elem_of_cons in H as [->|H]; [by eexists|]).
    by apply elem_of_nil in H.
  - intros field H. subst first last tags. unfold field_names in H.
    apply elem_of_cons in H as [->|H];
      [by apply (plain_field_populated d _ "ID" "id"); [set_solver|]|].
    apply elem_of_cons in H as [->|H];
      [by apply (plain_field_populated d _ "IPv4" "address_v4"); [set_solver|]|].
    apply elem_of_cons in H as [->|H];
      [by apply (plain_field_populated d _ "ASN" "asn_v4"); [set_solver|]|].
    apply elem_of_cons in H as [->|H];
      [by apply (plain_field_populated d _ "Pays" "country_code"); [set_solver|]|].
    apply elem_of_cons in H as [->|H].
    { destruct Hcoord as [[-> ->]|(gd & c & Hgd & Hc & Hpair)];
        [left; by eapply populated_text|].
      apply geometry_default_object in Hgd.
      destruct lon as [| | | | | |] eqn:Hlon; try (left; eexists; by split).
      right. right. right. exists gd, PNone, lat.
      rewrite (unpack2_null _ _ _ Hpair (or_introl eq_refl)) in Hc.
      split; [done|]. split; [done|]. by left. }
    apply elem_of_cons in H as [->|H].
    { destruct Hcoord as [[-> ->]|(gd & c & Hgd & Hc & Hpair)];
        [left; by eapply populated_text|].
      apply geometry_default_object in Hgd.
      destruct lat as [| | | | | |] eqn:Hlat; try (left; eexists; by split).
      right. right. right. exists gd, lon, PNone.
      rewrite (unpack2_null _ _ _ Hpair (or_intror eq_refl)) in Hc.
      split; [done|]. split; [done|]. by right. }
    apply elem_of_cons in H as [->|H].
    { destruct (status_name_cases _ _ Hst) as [->|(sd & Hs & Hname)];
        [left; by eapply populated_text|].
      destruct st as [| | | | | |] eqn:Est; try (left; eexists; by split).
      right. right. left. split; [done|]. by exists sd. }
    repeat (apply elem_of_cons in H as [->|H]; [left; by eapply populated_text|]).
    by apply elem_of_nil in H.
Qed.

End record_facts.

Lemma mapM_cons_ok {A B : Type} (f : A → result B) (x : A) (l : list A)
    (y : B) (ys : list B) :
  f x = Ok y → mapM f l = Ok ys → mapM f (x :: l) = Ok (y :: ys).
Proof. intros Hx Hl. simpl. rewrite Hx. simpl. by rewrite Hl. Qed.

Lemma tag_names_ok (items : list pyval) :
  Forall tag_ok items →
  ∃ names : list string,
    mapM (λ tag, subscript_str tag "name") items = Ok (PStr <$> names).
Proof.
  induction 1 as [|tag items (td & name & -> & Hname) _ [names IH]].
  - by exists [].
  - exists (name :: names). apply mapM_cons_ok; [|done].
    simpl. unfold getitem. by rewrite Hname.
Qed.

Lemma as_str_strings (names : list string) :
  mapM as_str (PStr <$> names) = Ok names.
Proof. induction names as [|name names IH]; [done|]. by apply mapM_cons_ok. Qed.

Lemma join_strings (sep : string) (names : list string) :
  join sep (PStr <$> names) = Ok (String.concat sep names).
Proof. unfold join. by rewrite as_str_strings. Qed.

Lemma probe_record_total (fromtimestamp_strftime : pyval → result string) (d : dict) :
  well_formed fromtimestamp_strftime d →
  ∃ r, probe_record fromtimestamp_strftime (PDict d) = Ok r.
Proof.
  intros (Hg & Hs & Hf & Hl & Ht).
  assert (∃ c, geometry_coordinates (default PNone (dict_lookup d "geometry")) = Ok c)
    as [[lon lat] Eg].
  { unfold geometry_coordinates.
    destruct (dict_lookup d "geometry") as [g|]; [|by eexists]. simpl.
    destruct Hg as [->|(gd & -> & Hc)]; [by eexists|]. simpl.
    destruct gd as [|item gd]; [by eexists|].
    change (truthy (PDict (item :: gd))) with true. cbv iota.
    unfold contains_str, subscript_str, getitem.
    destruct (dict_lookup (item :: gd) "coordinates") as [c|].
    - destruct Hc as (x & y & ->). rewrite bool_decide_true by by eexists.
      by eexists.
    - rewrite bool_decide_false by by intros [? [=]]. by eexists. }
  assert (∃ st, get (default (PDict []) (dict_lookup d "status")) "name"
                  (PStr "Unknown") = Ok st) as [st Es].
  { destruct (dict_lookup d "status") as [s|]; [|by eexists].
    destruct Hs as [sd ->]. by eexists. }
  assert (∀ key, timestamp_ok fromtimestamp_strftime d key →
            ∃ t, format_timestamp fromtimestamp_strftime
                   (default PNone (dict_lookup d key)) = Ok t) as Htime.
  { intros key Hk. unfold timestamp_ok in Hk. unfold format_timestamp.
    destruct (dict_lookup d key) as [ts|]; [|by eexists]. simpl.
    destruct Hk as [->|[s Hs']]; [by eexists|].
    destruct (truthy ts); [|by eexists]. rewrite Hs'. by eexists. }
  destruct (Htime _ Hf) as [first Ef], (Htime _ Hl) as [last El].
  assert (∃ tags, tags_field (PDict d) = Ok tags) as [tags Et].
  { unfold tags_field. simpl.
    destruct (dict_lookup d "tags") as [t|]; [|by eexists]. simpl.
    destruct Ht as [->|(items & -> & Hitems)]; [by eexists|]. simpl.
    destruct items as [|item items]; [by eexists|].
    destruct (tag_names_ok _ Hitems) as [names ->]. simpl.
    rewrite join_strings. by eexists. }
  unfold probe_record. simpl. rewrite Eg. simpl. rewrite Es. simpl.
  rewrite Ef. simpl. rewrite El. simpl. rewrite Et. simpl. by eexists.
Qed.

(** C4, as stated, fails: a body whose address is null gives a record whose
    IPv4 is [None], neither a value nor the marker; and on a body whose
    status is null no record is returned at all. *)
Lemma record_fields_counterexample :
  probe_record Scenario.paris_time (PDict [("id", PInt 6001); ("address_v4", PNone)])
  = Ok [("ID", PInt 6001); ("IPv4", PNone); ("ASN", PStr "N/A"); ("Pays", PStr "N/A");
        ("Longitude", PStr "N/A"); ("Latitude", PStr "N/A");
        ("Status", PStr "Unknown"); ("First Connected", PStr "N/A");
        ("Last Connected", PStr "N/A"); ("Tags", PStr "N/A")] ∧
  ¬ populated [("ID", PInt 6001); ("IPv4", PNone); ("ASN", PStr "N/A");
               ("Pays", PStr "N/A"); ("Longitude", PStr "N/A");
               ("Latitude", PStr "N/A"); ("Status", PStr "Unknown");
               ("First Connected", PStr "N/A"); ("Last Connected", PStr "N/A");
               ("Tags", PStr "N/A")] "IPv4" ∧
  probe_record Scenario.paris_time (PDict [("id", PInt 6001); ("status", PNone)])
  = Raise AttributeError.
Proof.
  split; [reflexivity|]. split; [|reflexivity].
  intros (v & [= <-] & Hv). by apply Hv.
Qed.

(** C4, amended: a record that is returned has the ten declared fields, and
    every one of them holds a value or a marker unless the body gives an
    explicit null for it (one of the four plain keys, the name of the status,
    a coordinate).  A field whose source is missing from the body holds its
    marker, "N/A" or "Unknown" for the status; a plain field given in the
    body holds the value given, and so does the status when it has a name;
    Longitude and Latitude hold "N/A" unless geometry is an object that has
    coordinates, so also for an object without them, and the two coordinates
    otherwise; First Connected, Last Connected and Tags always hold text, the
    marker when their source is null, zero or empty; and a record is
    returned for every body whose present fields are well formed, whichever
    fields are missing. *)
Theorem record_fields_defaulted :
  (∀ (fromtimestamp_strftime : pyval → result string) (data : pyval) (r : dict),
     probe_record fromtimestamp_strftime data = Ok r →
     r.*1 = field_names ∧ ∃ d, data = PDict d ∧ defaulted d r) ∧
  (∀ (fromtimestamp_strftime : pyval → result string) (d : dict),
     well_formed fromtimestamp_strftime d →
     ∃ r, probe_record fromtimestamp_strftime (PDict d) = Ok r) ∧
  (∀ fromtimestamp_strftime : pyval → result string,
     probe_record fromtimestamp_strftime (PDict [])
     = Ok [("ID", PStr "N/A"); ("IPv4", PStr "N/A"); ("ASN", PStr "N/A");
           ("Pays", PStr "N/A"); ("Longitude", PStr "N/A"); ("Latitude", PStr "N/A");
           ("Status", PStr "Unknown"); ("First Connected", PStr "N/A");
           ("Last Connected", PStr "N/A"); ("Tags", PStr "N/A")]).
Proof.
  split; [|split].
  - intros fts data r. apply probe_record_defaulted.
  - apply probe_record_total.
  - done.
Qed.

(** The body of probe 1 is well formed and gives record 1; a body whose
    geometry has no coordinates gives a record with the two markers. *)
Lemma record_fields_defaulted_witness :
  well_formed Scenario.paris_time Scenario.fields1 ∧
  probe_record Scenario.paris_time (PDict Scenario.fields1) = Ok Scenario.probe1 ∧
  (∃ r, probe_record Scenario.paris_time (PDict Scenario.fields1) = Ok r) ∧
  (Scenario.probe1.*1 = field_names ∧
   ∃ d, PDict Scenario.fields1 = PDict d ∧ defaulted d Scenario.probe1) ∧
  probe_record Scenario.paris_time (PDict Cases.fields_no_coordinates)
  = Ok Cases.probe_no_coordinates ∧
  Cases.probe_no_coordinates.*1 = field_names ∧
  ∃ d, PDict Cases.fields_no_coordinates = PDict d ∧
       defaulted d Cases.probe_no_coordinates.
Proof.
  assert (well_formed Scenario.paris_time Scenario.fields1) as Hwf.
  { unfold well_formed, timestamp_ok. simpl. split; [|split; [|split; [|split]]].
    - right. eexists. split; [reflexivity|]. simpl. by eexists _, _.
    - by eexists.
    - right. by eexists.
    - exact I.
    - right. eexists. split; [reflexivity|].
      repeat constructor; by eexists _, _. }
  split; [exact Hwf|]. split; [reflexivity|]. split; [|split; [|split]].
  - exact (proj1 (proj2 record_fields_defaulted) Scenario.paris_time
             Scenario.fields1 Hwf).
  - exact (proj1 record_fields_defaulted Scenario.paris_time
             (PDict Scenario.fields1) Scenario.probe1 eq_refl).
  - reflexivity.
  - exact (proj1 record_fields_defaulted Scenario.paris_time
             (PDict Cases.fields_no_coordinates) Cases.probe_no_coordinates eq_refl).
Defined.

(** ** The exporter *)

Section exporter_facts.

Variable writable : string → bool.
Variable csv_writer : list string → list dict → string * option exn.
Variable json_dump : list dict → string * option exn.
Variable str : pyval → string.

#[local] Abbreviation export_data := (export_data writable csv_writer json_dump str).
#[local] Abbreviation write_file := (write_file writable csv_writer json_dump str).


Lemma messages_differ (filename : string) : nothing_to_export ≠ exported_to filename.
Proof. intros H. vm_compute in H. discriminate H. Qed.

End exporter_facts.

Example export_txt_scenario :
  export_data Scenario.any_file Scenario.failing_csv Scenario.failing_json
    Scenario.show [Scenario.probe2] "probes.txt" "txt" Scenario.empty_world
  = (mk_world {["probes.txt" := Scenario.block2]} [exported_to "probes.txt"], None).
Proof. vm_compute. reflexivity. Qed.

Example export_csv_read_only :
  export_data Scenario.read_only Scenario.failing_csv Scenario.failing_json
    Scenario.show [Scenario.probe2] "probes.csv" "csv" Scenario.empty_world
  = (Scenario.empty_world, Some OSError).
Proof. reflexivity. Qed.

(** C5: on the empty list, whatever the format and the file name, the
    exporter raises nothing, leaves every file as it was and prints the one
    line that says there is nothing to export, which is not the line of a
    successful export. *)
Theorem export_nothing (writable : string → bool)
    (csv_writer : list string → list dict → string * option exn)
    (json_dump : list dict → string * option exn) (str : pyval → string)
    (filename output_format : string) (w : world) :
  export_data writable csv_writer json_dump str [] filename output_format w
  = (mk_world (files w) (stdout w ++ [nothing_to_export]), None) ∧
  ∀ name : string, nothing_to_export ≠ exported_to name.
Proof. split; [done|]. apply messages_differ. Qed.



(** ** File names *)

Section text_facts.

Lemma app_nil (t : string) : EmptyString +:+ t = t.
Proof. reflexivity. Qed.

Lemma app_cons (a : ascii) (s t : string) : String a s +:+ t = String a (s +:+ t).
Proof. reflexivity. Qed.

Lemma app_assoc_text (a b c : string) : (a +:+ b) +:+ c = a +:+ (b +:+ c).
Proof. induction a as [|x a IH]; [done|]. by rewrite !app_cons, IH. Qed.

Lemma length_app_text (a b : string) :
  String.length (a +:+ b) = (String.length a + String.length b)%nat.
Proof. induction a as [|x a IH]; [done|]. rewrite app_cons. simpl. by rewrite IH. Qed.

Lemma str_take_app (a b : string) : str_take (String.length a) (a +:+ b) = a.
Proof.
  induction a as [|x a IH].
  - by destruct b.
  - rewrite app_cons. simpl. by rewrite IH.
Qed.

Lemma str_drop_app (a b : string) (n : nat) :
  str_drop (String.length a + n) (a +:+ b) = str_drop n b.
Proof. induction a as [|x a IH]; [done|]. by rewrite app_cons. Qed.

Lemma str_drop_next (i : nat) (p : string) :
  (i < String.length p)%nat → ∃ a, str_drop i p = String a (str_drop (S i) p).
Proof.
  revert p. induction i as [|i IH]; intros [|a p]; simpl; try lia.
  - intros _. exists a. by destruct p.
  - intros H. apply IH. lia.
Qed.

Lemma occurs_app (c : ascii) (a b : string) :
  occurs c (a +:+ b) = occurs c a || occurs c b.
Proof.
  induction a as [|x a IH]; [done|]. rewrite app_cons. simpl.
  by rewrite IH, orb_assoc.
Qed.

Lemma occurs_split (c : ascii) (p : string) :
  occurs c p = true → ∃ q rest, p = q +:+ String c rest ∧ occurs c rest = false.
Proof.
  induction p as [|a p IH]; simpl; [done|].
  destruct (occurs c p) eqn:Hp.
  - intros _. destruct IH as (q & rest & -> & Hrest); [done|].
    by exists (String a q), rest.
  - rewrite orb_false_r. intros ->%Ascii.eqb_eq. by exists EmptyString, p.
Qed.

Lemma rfind_from_absent (c : ascii) (p : string) (i last : Z) :
  occurs c p = false → rfind_from c p i last = last.
Proof.
  revert i last. induction p as [|a p IH]; intros i last; simpl; [done|].
  intros [-> Hp]%orb_false_elim. by apply IH.
Qed.

Lemma rfind_from_last (c : ascii) (q rest : string) (i last : Z) :
  occurs c rest = false →
  rfind_from c (q +:+ String c rest) i last = i + Z.of_nat (String.length q).
Proof.
  intros Hrest. revert i last. induction q as [|a q IH]; intros i last.
  - rewrite app_nil. simpl. rewrite Ascii.eqb_refl, rfind_from_absent by done. lia.
  - rewrite app_cons. simpl. rewrite IH. lia.
Qed.

Lemma rfind_absent (c : ascii) (p : string) : occurs c p = false → rfind c p = -1.
Proof. apply rfind_from_absent. Qed.

Lemma rfind_last (c : ascii) (q rest : string) :
  occurs c rest = false → rfind c (q +:+ String c rest) = Z.of_nat (String.length q).
Proof. intros H. unfold rfind. by rewrite rfind_from_last. Qed.

Lemma rfind_lower (c : ascii) (p : string) : -1 ≤ rfind c p.
Proof.
  destruct (occurs c p) eqn:Hp.
  - apply occurs_split in Hp as (q & rest & -> & Hrest). rewrite rfind_last by done. lia.
  - by rewrite rfind_absent.
Qed.

Lemma all_dots_shift (d : string) : all_dots d = true → String "." d = d +:+ ".".
Proof.
  induction d as [|a d IH]; simpl; [done|].
  intros [->%Ascii.eqb_eq Hd]%andb_true_iff. by rewrite app_cons, <- IH.
Qed.

Lemma skip_leading_dots_spec (n : nat) (p : string) (i k : nat) :
  (k < n)%nat → (i + k ≤ String.length p)%nat →
  skip_leading_dots n p "." (Z.of_nat i) (Z.of_nat (i + k))
  = if all_dots (str_take k (str_drop i p)) then (p, EmptyString)
    else (str_take (i + k) p, str_drop (i + k) p).
Proof.
  revert n i. induction k as [|k IH]; intros [|n] i Hn Hlen; try lia; simpl.
  - rewrite Nat.add_0_r, Z.ltb_irrefl. done.
  - assert ((Z.of_nat i <? Z.of_nat (i + S k)) = true) as -> by (apply Z.ltb_lt; lia).
    unfold char_at. rewrite !Nat2Z.id.
    destruct (str_drop_next i p) as [a Ha]; [lia|].
    remember (str_drop (S i) p) as r eqn:Hr. rewrite Ha. simpl.
    destruct (Ascii.eqb a ".") eqn:Hdot; simpl; [|done]. subst r.
    replace (Z.of_nat i + 1) with (Z.of_nat (S i)) by lia.
    replace (i + S k)%nat with (S i + k)%nat by lia.
    apply IH; lia.
Qed.

Lemma str_drop_0 (p : string) : str_drop 0 p = p.
Proof. by destruct p. Qed.

Lemma str_drop_app_exact (a b : string) : str_drop (String.length a) (a +:+ b) = b.
Proof.
  rewrite <- (Nat.add_0_r (String.length a)), str_drop_app. apply str_drop_0.
Qed.

Lemma all_dots_no_sep (d : string) : all_dots d = true → occurs "/" d = false.
Proof.
  induction d as [|a d IH]; simpl; [done|].
  intros [->%Ascii.eqb_eq Hd]%andb_true_iff. by rewrite IH.
Qed.

Lemma splitext_at (p : string) (i k : nat) :
  rfind "/" p = Z.of_nat i - 1 → rfind "." p = Z.of_nat (i + k) →
  (i + k ≤ String.length p)%nat →
  splitext p
  = if all_dots (str_take k (str_drop i p)) then (p, EmptyString)
    else (str_take (i + k) p, str_drop (i + k) p).
Proof.
  intros Hsep Hdot Hlen. unfold splitext, _splitext. rewrite Hsep, Hdot.
  assert ((Z.of_nat (i + k) >? Z.of_nat i - 1) = true) as -> by (apply Z.gtb_lt; lia).
  replace (Z.of_nat i - 1 + 1) with (Z.of_nat i) by lia.
  apply skip_leading_dots_spec; lia.
Qed.

Lemma rfind_sep_dir (dir tail : string) :
  is_dir_prefix dir → occurs "/" tail = false →
  rfind "/" (dir +:+ tail) = Z.of_nat (String.length dir) - 1.
Proof.
  intros [->|[dir' ->]] Htail.
  - rewrite app_nil, rfind_absent by done. simpl. lia.
  - rewrite app_assoc_text, app_cons, app_nil, rfind_last by done.
    rewrite length_app_text. simpl. lia.
Qed.

Lemma splitext_extension (dir name e : string) :
  is_dir_prefix dir → occurs "/" name = false → all_dots name = false →
  occurs "." e = false → occurs "/" e = false →
  splitext (dir +:+ name +:+ "." +:+ e) = (dir +:+ name, String "." e).
Proof.
  intros Hdir Hname Hdots He Hsep.
  assert (dir +:+ name +:+ "." +:+ e = (dir +:+ name) +:+ String "." e) as Hp
    by by rewrite app_assoc_text.
  rewrite (splitext_at _ (String.length dir) (String.length name)).
  - rewrite str_drop_app_exact, str_take_app, Hdots.
    rewrite <- length_app_text, Hp. by rewrite str_take_app, str_drop_app_exact.
  - apply rfind_sep_dir; [done|]. rewrite !occurs_app, Hname, Hsep. done.
  - rewrite Hp, rfind_last by done. by rewrite length_app_text.
  - rewrite !length_app_text. lia.
Qed.

Lemma splitext_no_extension (dir dots rest : string) :
  is_dir_prefix dir → all_dots dots = true →
  occurs "." rest = false → occurs "/" rest = false →
  splitext (dir +:+ dots +:+ rest) = (dir +:+ dots +:+ rest, EmptyString).
Proof.
  intros Hdir Hdots Hrest Hsep.
  assert (rfind "/" (dir +:+ dots +:+ rest) = Z.of_nat (String.length dir) - 1) as Hs.
  { apply rfind_sep_dir; [done|]. by rewrite occurs_app, all_dots_no_sep, Hsep. }
  destruct dots as [|a d].
  - rewrite app_nil in *. unfold splitext, _splitext. rewrite Hs.
    destruct (occurs "." dir) eqn:Hd.
    + apply occurs_split in Hd as (q & r & -> & Hr).
      rewrite app_assoc_text, app_cons, rfind_last by by rewrite occurs_app, Hr, Hrest.
      rewrite length_app_text. simpl.
      assert ((Z.of_nat (String.length q)
               >? Z.of_nat (String.length q + S (String.length r)) - 1) = false) as ->
        by (rewrite Z.gtb_ltb; apply Z.ltb_ge; lia).
      done.
    + rewrite rfind_absent by by rewrite occurs_app, Hd, Hrest.
      assert ((-1 >? Z.of_nat (String.length dir) - 1) = false) as ->
        by (rewrite Z.gtb_ltb; apply Z.ltb_ge; lia).
      done.
  - simpl in Hdots. apply andb_true_iff in Hdots as [->%Ascii.eqb_eq Hd].
    assert (dir +:+ String "." d +:+ rest = (dir +:+ d) +:+ String "." rest) as Hp.
    { rewrite (all_dots_shift d Hd). by rewrite !app_assoc_text. }
    rewrite (splitext_at _ (String.length dir) (String.length d)).
    + rewrite str_drop_app_exact, (all_dots_shift d Hd), app_assoc_text, str_take_app.
      by rewrite Hd.
    + done.
    + rewrite Hp, rfind_last by done. by rewrite length_app_text.
    + rewrite !length_app_text. simpl. lia.
Qed.

Lemma splitext_cases (p : string) :
  splitext p = (p, EmptyString) ∨
  ∃ q e, p = q +:+ String "." e ∧ occurs "." e = false ∧ occurs "/" e = false ∧
         splitext p = (q, String "." e).
Proof.
  unfold splitext, _splitext.
  destruct (rfind "." p >? rfind "/" p) eqn:Hcmp; [|by left].
  apply Z.gtb_lt in Hcmp. pose proof (rfind_lower "/" p) as Hlow.
  destruct (occurs "." p) eqn:Hdot; [|rewrite (rfind_absent "." p Hdot) in Hcmp; lia].
  apply occurs_split in Hdot as (q & e & -> & He).
  rewrite (rfind_last "." q e He) in *.
  set (s := rfind "/" (q +:+ String "." e)) in *.
  set (i := Z.to_nat (s + 1)). set (k := (String.length q - i)%nat).
  assert (skip_leading_dots (S (Z.to_nat (Z.of_nat (String.length q) - (s + 1))))
            (q +:+ String "." e) "." (s + 1) (Z.of_nat (String.length q))
          = if all_dots (str_take k (str_drop i (q +:+ String "." e)))
            then (q +:+ String "." e, EmptyString) else (q, String "." e)) as ->.
  { replace (s + 1) with (Z.of_nat i) by lia.
    replace (String.length q) with (i + k)%nat at 1 2 by lia.
    rewrite skip_leading_dots_spec by (rewrite ?length_app_text; simpl; lia).
    replace (i + k)%nat with (String.length q) by lia.
    by rewrite str_take_app, str_drop_app_exact. }
  destruct (all_dots _); [by left|]. right. exists q, e.
  repeat split; try done.
  destruct (occurs "/" e) eqn:Hsep; [|done].
  apply occurs_split in Hsep as (e1 & e2 & -> & He2). subst s.
  rewrite <- app_cons, <- app_assoc_text, rfind_last in Hcmp by done.
  rewrite length_app_text in Hcmp. lia.
Qed.

End text_facts.

Lemma extension_table (output_format : string) :
  table_get extensions output_format ".csv" = canonical_extension output_format.
Proof.
  unfold canonical_extension, extensions. cbn [table_get].
  rewrite !(String.eqb_sym _ output_format).
  destruct (String.eqb_spec output_format "csv") as [->|_]; [done|].
  destruct (String.eqb_spec output_format "json") as [->|_]; [done|].
  by destruct (String.eqb_spec output_format "txt") as [->|_].
Qed.

(** C6: the output file name is the base without its extension, followed by
    the canonical extension of the format: ".json", ".txt", and ".csv" for
    "csv" and for any other format.  The base splits into a root and its
    extension, which is empty or a dot followed by characters that are
    neither dots nor separators; an extension after a name that is not made
    of dots only is replaced, not kept; a base whose last component has no
    dot, or only leading ones, has no extension and gets the new one
    appended; "probes.old" with "txt" gives "probes.txt". *)
Theorem output_filename_replaces_extension :
  (∀ base output_format : string,
     get_output_filename base output_format
     = (splitext base).1 +:+ canonical_extension output_format) ∧
  (∀ base : string,
     (splitext base).1 +:+ (splitext base).2 = base ∧
     is_extension (splitext base).2) ∧
  (∀ dir name e output_format : string,
     is_dir_prefix dir → occurs "/" name = false → all_dots name = false →
     occurs "." e = false → occurs "/" e = false →
     get_output_filename (dir +:+ name +:+ "." +:+ e) output_format
     = dir +:+ name +:+ canonical_extension output_format) ∧
  (∀ dir dots rest output_format : string,
     is_dir_prefix dir → all_dots dots = true →
     occurs "." rest = false → occurs "/" rest = false →
     get_output_filename (dir +:+ dots +:+ rest) output_format
     = dir +:+ dots +:+ rest +:+ canonical_extension output_format) ∧
  canonical_extension "csv" = ".csv" ∧ canonical_extension "json" = ".json" ∧
  canonical_extension "txt" = ".txt" ∧
  (∀ output_format : string,
     output_format ≠ "csv" → output_format ≠ "json" → output_format ≠ "txt" →
     canonical_extension output_format = ".csv") ∧
  get_output_filename "probes.old" "txt" = "probes.txt".
Proof.
  split; [|split; [|split; [|split]]].
  - intros base output_format. unfold get_output_filename. by rewrite extension_table.
  - intros base.
    destruct (splitext_cases base) as [->|(q & e & Hbase & He & Hsep & ->)]; simpl.
    + split; [|by left]. induction base as [|a base IH]; [done|].
      by rewrite app_cons, IH.
    + split; [done|]. right. by exists e.
  - intros dir name e output_format Hdir Hname Hdots He Hsep.
    unfold get_output_filename.
    rewrite extension_table, splitext_extension by done. simpl.
    by rewrite app_assoc_text.
  - intros dir dots rest output_format Hdir Hdots Hrest Hsep.
    unfold get_output_filename.
    rewrite extension_table, splitext_no_extension by done. simpl.
    by rewrite !app_assoc_text.
  - repeat split.
    intros output_format Hcsv Hjson Htxt. unfold canonical_extension.
    apply String.eqb_neq in Hjson as ->. by apply String.eqb_neq in Htxt as ->.
Qed.

(** "out/probes.old" loses ".old"; "out/..probes" has no extension. *)
Lemma output_filename_replaces_extension_witness :
  is_dir_prefix "out/" ∧ occurs "/" "probes" = false ∧ all_dots "probes" = false ∧
  occurs "." "old" = false ∧ occurs "/" "old" = false ∧
  get_output_filename ("out/" +:+ "probes" +:+ "." +:+ "old") "txt"
  = "out/" +:+ "probes" +:+ canonical_extension "txt" ∧
  get_output_filename ("out/" +:+ ".." +:+ "probes") "xml"
  = "out/" +:+ ".." +:+ "probes" +:+ canonical_extension "xml" ∧
  canonical_extension "xml" = ".csv".
Proof.
  assert (is_dir_prefix "out/") as Hdir by (right; by exists "out").
  split; [exact Hdir|]. do 4 (split; [reflexivity|]). split; [|split].
  - exact (proj1 (proj2 (proj2 output_filename_replaces_extension))
             "out/" "probes" "old" "txt" Hdir eq_refl eq_refl eq_refl eq_refl).
  - exact (proj1 (proj2 (proj2 (proj2 output_filename_replaces_extension)))
             "out/" ".." "probes" "xml" Hdir eq_refl eq_refl eq_refl).
  - apply (proj1 (proj2 (proj2 (proj2 (proj2 (proj2 (proj2 (proj2
             output_filename_replaces_extension)))))))); discriminate.
Defined.

(** * Further properties *)

(** ** The filter: shape of the output, exceptions *)

Section filter_more.

Context {Ref : Type} (deref : Ref → dict) (strptime : string → option datetime).
Variables (c : option string) (k : option bool) (f l : option datetime).

Lemma filter_loop_app (xs ys filtered : list Ref) :
  filter_loop deref strptime c k f l (xs ++ ys) filtered
  = filter_loop deref strptime c k f l xs filtered
      ≫= filter_loop deref strptime c k f l ys.
Proof.
  revert filtered. induction xs as [|x xs IH]; intros filtered; simpl; [done|].
  destruct (rejects strptime c k f l (deref x)); simpl; [apply IH|done].
Qed.

Lemma filter_loop_accumulates (probes filtered : list Ref) :
  filter_loop deref strptime c k f l probes filtered
  = filter_loop deref strptime c k f l probes [] ≫= λ out, Ok (filtered ++ out).
Proof.
  destruct (filter_loop deref strptime c k f l probes []) as [out|e] eqn:Hout.
  - apply filter_loop_returns in Hout as [Htested ->]. simpl.
    by apply filter_loop_tested.
  - simpl. revert filtered Hout. generalize (@nil Ref).
    induction probes as [|p ps IH]; intros acc filtered; simpl; [done|].
    destruct (rejects strptime c k f l (deref p)); simpl; [|done].
    apply IH.
Qed.

Lemma filter_loop_raises (before after filtered : list Ref) (p : Ref) (e : exn) :
  Forall (tested deref strptime c k f l) before →
  rejects strptime c k f l (deref p) = Raise e →
  filter_loop deref strptime c k f l (before ++ p :: after) filtered = Raise e.
Proof.
  intros Hbefore Hp. rewrite filter_loop_app, filter_loop_tested by done.
  simpl. by rewrite Hp.
Qed.

End filter_more.

(** X1: the output of the filter is a sublist of its input: the records it
    returns are records of the input, in the order of the input, none
    repeated or added. *)
Theorem filter_output_sublist {Ref : Type} (deref : Ref → dict)
    (strptime : string → option datetime) (probes : list Ref)
    (c : option string) (k : option bool) (f l : option datetime)
    (out : list Ref) :
  filter_probes deref strptime probes c k f l = Ok out →
  out `sublist_of` probes ∧ (length out ≤ length probes)%nat.
Proof.
  intros [_ ->]%filter_probes_returns.
  pose proof (sublist_filter (keeps deref strptime c k f l) probes) as Hsub.
  split; [done|]. by apply sublist_length.
Qed.

(** Scenario 1: the record of France out of the two. *)
Lemma filter_output_sublist_witness :
  filter_probes id Strptime.strptime Scenario.probes (Some "FR") None None None
  = Ok [Scenario.probe1] ∧
  [Scenario.probe1] `sublist_of` Scenario.probes ∧
  (length [Scenario.probe1] ≤ length Scenario.probes)%nat.
Proof.
  split; [reflexivity|].
  exact (filter_output_sublist id Strptime.strptime Scenario.probes (Some "FR")
           None None None [Scenario.probe1] eq_refl).
Defined.

(** X2: filtering a concatenation is filtering its two parts in turn and
    concatenating the results: a record is judged on its own, and the first
    exception of either part is the exception of the whole. *)
Theorem filter_concatenation {Ref : Type} (deref : Ref → dict)
    (strptime : string → option datetime) (xs ys : list Ref)
    (c : option string) (k : option bool) (f l : option datetime) :
  filter_probes deref strptime (xs ++ ys) c k f l
  = (a ← filter_probes deref strptime xs c k f l;
     b ← filter_probes deref strptime ys c k f l;
     Ok (a ++ b)).
Proof.
  unfold filter_probes. rewrite filter_loop_app.
  destruct (filter_loop deref strptime c k f l xs []) as [a|e]; [|done].
  simpl. apply filter_loop_accumulates.
Qed.

(** X3: with a country that is not the empty text, every record of the output
    has exactly that text as its Pays; with no other criterion and records
    that have a Pays, the output is the records whose Pays is that text; the
    empty text is no criterion at all. *)
Theorem country_criterion :
  (∀ (Ref : Type) (deref : Ref → dict) (strptime : string → option datetime)
     (probes : list Ref) (c : string) (k : option bool) (f l : option datetime)
     (out : list Ref),
     c ≠ "" →
     filter_probes deref strptime probes (Some c) k f l = Ok out →
     Forall (λ p, getitem (deref p) "Pays" = Ok (PStr c)) out) ∧
  (∀ (Ref : Type) (deref : Ref → dict) (strptime : string → option datetime)
     (probes : list Ref) (c : string),
     c ≠ "" →
     Forall (λ p, is_Some (dict_lookup (deref p) "Pays")) probes →
     filter_probes deref strptime probes (Some c) None None None
     = Ok (filter (λ p, pays_is c (deref p) = true) probes)) ∧
  (∀ (Ref : Type) (deref : Ref → dict) (strptime : string → option datetime)
     (probes : list Ref) (k : option bool) (f l : option datetime),
     filter_probes deref strptime probes (Some "") k f l
     = filter_probes deref strptime probes None k f l).
Proof.
  assert (∀ (c : string) (probe : dict), c ≠ "" →
            country_rejects (Some c) probe = Ok false ↔
            getitem probe "Pays" = Ok (PStr c)) as Hcountry.
  { intros c probe Hc. unfold country_rejects. simpl.
    apply String.eqb_neq in Hc as ->. simpl.
    destruct (getitem probe "Pays") as [v|]; simpl; [|done]. split.
    - intros [= H]. f_equal. apply eq_str_true. by destruct (eq_str v c).
    - intros [= ->]. simpl. by rewrite String.eqb_refl. }
  split; [|split].
  - intros Ref deref strptime probes c k f l out Hc [_ ->]%filter_probes_returns.
    apply Forall_forall. intros p [Hp _]%list_elem_of_filter.
    apply keeps_stages in Hp as (Hp & _). by apply Hcountry.
  - intros Ref deref strptime probes c Hc Hpays.
    rewrite Forall_forall in Hpays. rewrite filter_probes_tested.
    + f_equal. apply filter_iff_on. intros p Hp.
      destruct (Hpays p Hp) as [v Hv].
      rewrite keeps_stages, Hcountry by done.
      unfold pays_is, getitem. rewrite Hv. simpl. split.
      * intros ([= ->] & _). simpl. apply String.eqb_refl.
      * intros ->%eq_str_true. done.
    + apply Forall_forall. intros p Hp. destruct (Hpays p Hp) as [v Hv].
      unfold tested, rejects, country_rejects, getitem. simpl.
      apply String.eqb_neq in Hc as ->. simpl. rewrite Hv. simpl.
      destruct (eq_str v c); by eexists.
  - intros Ref deref strptime probes k f l. unfold filter_probes.
    generalize (@nil Ref). induction probes as [|p ps IH]; intros acc; [done|].
    cbn [filter_loop].
    change (rejects strptime (Some "") k f l (deref p))
      with (rejects strptime None k f l (deref p)).
    destruct (rejects strptime None k f l (deref p)); simpl; [apply IH|done].
Qed.

(** Scenario 1 as an instance. *)
Lemma country_criterion_witness :
  "FR" ≠ "" ∧
  filter_probes id Strptime.strptime Scenario.probes (Some "FR") None None None
  = Ok [Scenario.probe1] ∧
  Forall (λ p, getitem (id p) "Pays" = Ok (PStr "FR")) [Scenario.probe1] ∧
  Forall (λ p, is_Some (dict_lookup (id p) "Pays")) Scenario.probes ∧
  filter_probes id Strptime.strptime Scenario.probes (Some "FR") None None None
  = Ok (filter (λ p, pays_is "FR" (id p) = true) Scenario.probes).
Proof.
  assert ("FR" ≠ "") as Hc by discriminate.
  assert (Forall (λ p, is_Some (dict_lookup (id p) "Pays")) Scenario.probes)
    as Hpays by (repeat constructor; by eexists).
  destruct country_criterion as (Hout & Hexact & _).
  split; [exact Hc|]. split; [reflexivity|]. split; [|split; [exact Hpays|]].
  - exact (Hout dict id Strptime.strptime Scenario.probes "FR" None None None
             [Scenario.probe1] Hc eq_refl).
  - exact (Hexact dict id Strptime.strptime Scenario.probes "FR" Hc Hpays).
Defined.

(** X4: when the records before [p] are tested without exception and the
    test of [p] raises, the filter raises that exception: no partial list is
    returned, whatever the records after [p] are. *)
Theorem filter_first_exception_aborts {Ref : Type} (deref : Ref → dict)
    (strptime : string → option datetime) (before after : list Ref) (p : Ref)
    (c : option string) (k : option bool) (f l : option datetime) (e : exn) :
  Forall (tested deref strptime c k f l) before →
  rejects strptime c k f l (deref p) = Raise e →
  filter_probes deref strptime (before ++ p :: after) c k f l = Raise e.
Proof. intros Hbefore Hp. by apply filter_loop_raises. Qed.

(** Record 1, then a record without fields, then record 2, filtered by
    status. *)
Lemma filter_first_exception_aborts_witness :
  Forall (tested id Strptime.strptime None (Some true) None None) [Scenario.probe1] ∧
  rejects Strptime.strptime None (Some true) None None (id []) = Raise (KeyError "Status") ∧
  filter_probes id Strptime.strptime ([Scenario.probe1] ++ [] :: [Scenario.probe2])
    None (Some true) None None = Raise (KeyError "Status").
Proof.
  assert (Forall (tested id Strptime.strptime None (Some true) None None)
            [Scenario.probe1]) as Hbefore
    by (constructor; [by exists false|constructor]).
  split; [exact Hbefore|]. split; [reflexivity|].
  exact (filter_first_exception_aborts id Strptime.strptime [Scenario.probe1]
           [Scenario.probe2] [] None (Some true) None None (KeyError "Status")
           Hbefore eq_refl).
Defined.

Lemma date_rejects_raises (strptime : string → option datetime) (probe : dict)
    (field : string) (t : datetime) (e : exn) :
  date_field_raises strptime probe field e →
  date_rejects strptime field (Some t) probe = Raise e.
Proof.
  unfold date_rejects, getitem.
  intros [[-> ->]|[(v & -> & Hv & ->)|(s & -> & Hs & Hparse & ->)]]; [done|..].
  - destruct v as [| | | |s| |]; simpl; try done. by destruct (Hv s).
  - simpl. apply String.eqb_neq in Hs as ->. simpl. by rewrite Hparse.
Qed.

(** X5: when the records before [p] are tested without exception and [p]
    gets past the criteria tested before the one at hand (the country, then
    the status, then the first date, then the last date), lacking the field
    that criterion reads makes the filter raise [KeyError] with the name of
    the field; under a date criterion a field that is not text makes it raise
    [TypeError], and text other than "N/A" that does not parse makes it raise
    [ValueError].  A record the country criterion rejects is skipped without
    its other fields being read. *)
Theorem filter_field_exceptions {Ref : Type} (deref : Ref → dict)
    (strptime : string → option datetime) (before after : list Ref) (p : Ref)
    (c : option string) (k : option bool) (f l : option datetime) :
  Forall (tested deref strptime c k f l) before →
  (∀ text : string,
     c = Some text → text ≠ "" → dict_lookup (deref p) "Pays" = None →
     filter_probes deref strptime (before ++ p :: after) c k f l
     = Raise (KeyError "Pays")) ∧
  (∀ b : bool,
     k = Some b → country_rejects c (deref p) = Ok false →
     dict_lookup (deref p) "Status" = None →
     filter_probes deref strptime (before ++ p :: after) c k f l
     = Raise (KeyError "Status")) ∧
  (∀ (t : datetime) (e : exn),
     f = Some t → country_rejects c (deref p) = Ok false →
     connected_rejects k (deref p) = Ok false →
     date_field_raises strptime (deref p) "First Connected" e →
     filter_probes deref strptime (before ++ p :: after) c k f l = Raise e) ∧
  (∀ (t : datetime) (e : exn),
     l = Some t → country_rejects c (deref p) = Ok false →
     connected_rejects k (deref p) = Ok false →
     date_rejects strptime "First Connected" f (deref p) = Ok false →
     date_field_raises strptime (deref p) "Last Connected" e →
     filter_probes deref strptime (before ++ p :: after) c k f l = Raise e) ∧
  (country_rejects c (deref p) = Ok true →
   filter_probes deref strptime (before ++ p :: after) c k f l
   = filter_probes deref strptime (before ++ after) c k f l).
Proof.
  intros Hbefore. split; [|split; [|split; [|split]]].
  - intros text -> Htext Hpays. apply filter_loop_raises; [done|].
    unfold rejects, country_rejects, getitem. simpl.
    apply String.eqb_neq in Htext as ->. simpl. by rewrite Hpays.
  - intros b -> Hc Hstatus. apply filter_loop_raises; [done|].
    unfold rejects. rewrite Hc. cbn -[connected_rejects date_rejects].
    unfold connected_rejects, getitem. by rewrite Hstatus.
  - intros t e -> Hc Hk He. apply filter_loop_raises; [done|].
    unfold rejects. rewrite Hc. cbn -[connected_rejects date_rejects].
    rewrite Hk. cbn -[connected_rejects date_rejects].
    by rewrite (date_rejects_raises _ _ _ _ _ He).
  - intros t e -> Hc Hk Hf He. apply filter_loop_raises; [done|].
    unfold rejects. rewrite Hc. cbn -[connected_rejects date_rejects].
    rewrite Hk. cbn -[connected_rejects date_rejects].
    rewrite Hf. cbn -[connected_rejects date_rejects].
    by rewrite (date_rejects_raises _ _ _ _ _ He).
  - intros Hc. unfold filter_probes. rewrite !filter_loop_app.
    destruct (filter_loop deref strptime c k f l before []) as [out|]; [|done].
    simpl. unfold rejects. by rewrite Hc.
Qed.

(** Record 1, then a record of France, connected, whose First Connected is
    "yesterday", under the three criteria France, connected and 2021. *)
Lemma filter_field_exceptions_witness :
  Forall (tested id Strptime.strptime (Some "FR") (Some true)
            (Some Scenario.threshold) None) [Scenario.probe1] ∧
  country_rejects (Some "FR") (id Cases.probe_yesterday) = Ok false ∧
  connected_rejects (Some true) (id Cases.probe_yesterday) = Ok false ∧
  date_field_raises Strptime.strptime (id Cases.probe_yesterday) "First Connected"
    ValueError ∧
  filter_probes id Strptime.strptime
    ([Scenario.probe1] ++ Cases.probe_yesterday :: [Scenario.probe2])
    (Some "FR") (Some true) (Some Scenario.threshold) None = Raise ValueError.
Proof.
  assert (Forall (tested id Strptime.strptime (Some "FR") (Some true)
                    (Some Scenario.threshold) None) [Scenario.probe1]) as Hbefore
    by (constructor; [by exists true|constructor]).
  assert (date_field_raises Strptime.strptime (id Cases.probe_yesterday)
            "First Connected" ValueError) as Hraises.
  { right. right. exists "yesterday". split; [reflexivity|].
    split; [discriminate|]. split; reflexivity. }
  split; [exact Hbefore|]. do 2 (split; [reflexivity|]). split; [exact Hraises|].
  exact (proj1 (proj2 (proj2 (filter_field_exceptions id Strptime.strptime
                                [Scenario.probe1] [Scenario.probe2]
                                Cases.probe_yesterday (Some "FR") (Some true)
                                (Some Scenario.threshold) None Hbefore)))
           Scenario.threshold ValueError eq_refl eq_refl eq_refl Hraises).
Defined.

(** ** The fetcher: coordinates, tags, the loop of the driver *)

Lemma geometry_coordinates_object (gd : dict) (c : pyval) :
  dict_lookup gd "coordinates" = Some c →
  geometry_coordinates (PDict gd) = unpack2 c.
Proof.
  intros Hc. unfold geometry_coordinates.
  destruct gd as [|item gd]; [done|].
  change (truthy (PDict (item :: gd))) with true. cbv iota.
  unfold contains_str, subscript_str, getitem. rewrite Hc.
  by rewrite bool_decide_true by by eexists.
Qed.

(** X6: when geometry is an object with coordinates, the record's Longitude is
    the first coordinate and its Latitude the second; coordinates that are a
    list of another length give no record but [ValueError], whatever else the
    body holds. *)
Theorem coordinates_in_order (fromtimestamp_strftime : pyval → result string)
    (d gd : dict) :
  dict_lookup d "geometry" = Some (PDict gd) →
  (∀ (x y : pyval) (r : dict),
     dict_lookup gd "coordinates" = Some (PList [x; y]) →
     probe_record fromtimestamp_strftime (PDict d) = Ok r →
     getitem r "Longitude" = Ok x ∧ getitem r "Latitude" = Ok y) ∧
  (∀ items : list pyval,
     dict_lookup gd "coordinates" = Some (PList items) → length items ≠ 2%nat →
     probe_record fromtimestamp_strftime (PDict d) = Raise ValueError).
Proof.
  intros Hg. split.
  - intros x y r Hc
      (d' & lon & lat & st & first & last & tags & [= <-] & Hlon & _ & _ & _ & _ & ->)
      %probe_record_inv.
    rewrite Hg in Hlon. simpl in Hlon.
    rewrite (geometry_coordinates_object _ _ Hc) in Hlon.
    by injection Hlon as <- <-.
  - intros items Hc Hlen. unfold probe_record. simpl. rewrite Hg. simpl.
    rewrite (geometry_coordinates_object _ _ Hc).
    by destruct items as [|? [|? [|? ?]]].
Qed.

(** The body of probe 1: longitude 2.25, latitude 48.875. *)
Lemma coordinates_in_order_witness :
  dict_lookup Scenario.fields1 "geometry"
  = Some (PDict [("type", PStr "Point");
                 ("coordinates", PList [PFloat 2.25; PFloat 48.875])]) ∧
  probe_record Scenario.paris_time (PDict Scenario.fields1) = Ok Scenario.probe1 ∧
  getitem Scenario.probe1 "Longitude" = Ok (PFloat 2.25) ∧
  getitem Scenario.probe1 "Latitude" = Ok (PFloat 48.875).
Proof.
  split; [reflexivity|]. split; [reflexivity|].
  exact (proj1 (coordinates_in_order Scenario.paris_time Scenario.fields1 _ eq_refl)
           (PFloat 2.25) (PFloat 48.875) Scenario.probe1 eq_refl eq_refl).
Defined.

Lemma tag_names_raise (before after : list pyval) (td : dict) :
  Forall (λ tag, ∃ v, subscript_str tag "name" = Ok v) before →
  dict_lookup td "name" = None →
  mapM (λ tag, subscript_str tag "name") (before ++ PDict td :: after)
  = Raise (KeyError "name").
Proof.
  intros Hbefore Htd. induction Hbefore as [|tag before [v Hv] _ IH].
  - simpl. unfold getitem. by rewrite Htd.
  - change ((tag :: before) ++ PDict td :: after)
      with (tag :: (before ++ PDict td :: after)).
    cbn [mapM]. rewrite Hv, IH. done.
Qed.

Lemma tag_names_named (items : list pyval) (names : list string) :
  Forall2 (λ tag name, ∃ td, tag = PDict td ∧
                             dict_lookup td "name" = Some (PStr name)) items names →
  mapM (λ tag, subscript_str tag "name") items = Ok (PStr <$> names).
Proof.
  induction 1 as [|tag name items names (td & -> & Hname) _ IH]; [done|].
  apply mapM_cons_ok; [|done]. simpl. unfold getitem. by rewrite Hname.
Qed.

(** X7: when tags is a list of objects that have names, and is not empty, the
    record's Tags is the names joined by ", " in the order of the list; when
    one of the objects has no name, no record is returned. *)
Theorem tags_joined_in_order (fromtimestamp_strftime : pyval → result string)
    (d : dict) (items : list pyval) :
  dict_lookup d "tags" = Some (PList items) →
  (∀ (names : list string) (r : dict),
     items ≠ [] →
     Forall2 (λ tag name, ∃ td, tag = PDict td ∧
                                dict_lookup td "name" = Some (PStr name))
       items names →
     probe_record fromtimestamp_strftime (PDict d) = Ok r →
     getitem r "Tags" = Ok (PStr (String.concat ", " names))) ∧
  (∀ (before after : list pyval) (td : dict),
     items = before ++ PDict td :: after →
     Forall (λ tag, ∃ v, subscript_str tag "name" = Ok v) before →
     dict_lookup td "name" = None →
     tags_field (PDict d) = Raise (KeyError "name") ∧
     ∀ r, probe_record fromtimestamp_strftime (PDict d) ≠ Ok r).
Proof.
  intros Htags. split.
  - intros names r Hitems Hnames
      (d' & lon & lat & st & first & last & tags & [= <-] & _ & _ & _ & _ & Ht & ->)
      %probe_record_inv.
    unfold tags_field in Ht. simpl in Ht. rewrite Htags in Ht. simpl in Ht.
    destruct items as [|item items]; [done|].
    rewrite (tag_names_named _ _ Hnames) in Ht. simpl in Ht.
    rewrite join_strings in Ht. simpl in Ht. by injection Ht as <-.
  - intros before after td -> Hbefore Htd.
    assert (tags_field (PDict d) = Raise (KeyError "name")) as Hraise.
    { assert (truthy (PList (before ++ PDict td :: after)) = true) as Htrue
        by by destruct before.
      unfold tags_field, get. rewrite Htags. cbn -[truthy mapM join].
      rewrite Htrue. cbn -[mapM join]. by rewrite tag_names_raise. }
    split; [done|].
    intros r (d' & lon & lat & st & first & last & tags & [= <-] & _ & _ & _ & _ & Ht & _)
      %probe_record_inv.
    by rewrite Hraise in Ht.
Qed.

(** The body of probe 1: its two tags, in order. *)
Lemma tags_joined_in_order_witness :
  probe_record Scenario.paris_time (PDict Scenario.fields1) = Ok Scenario.probe1 ∧
  getitem Scenario.probe1 "Tags" = Ok (PStr (String.concat ", " ["home"; "fibre"])) ∧
  tags_field (PDict [("tags", PList [PDict [("name", PStr "home")];
                                     PDict [("slug", PStr "fibre")]])])
  = Raise (KeyError "name").
Proof.
  split; [reflexivity|]. split.
  - refine (proj1 (tags_joined_in_order Scenario.paris_time Scenario.fields1 _ eq_refl)
              ["home"; "fibre"] Scenario.probe1 _ _ eq_refl); [discriminate|].
    repeat constructor; by eexists.
  - refine (proj1 (proj2 (tags_joined_in_order Scenario.paris_time
              [("tags", PList [PDict [("name", PStr "home")];
                               PDict [("slug", PStr "fibre")]])] _ eq_refl)
              [PDict [("name", PStr "home")]] [] [("slug", PStr "fibre")]
              eq_refl _ eq_refl)).
    constructor; [by eexists|constructor].
Defined.

Section driver_loop.

Variable requests_get : string → result response.
Variable fromtimestamp_strftime : pyval → result string.

#[local] Abbreviation fetch := (get_probe_info requests_get fromtimestamp_strftime).
#[local] Abbreviation loop := (main_loop requests_get fromtimestamp_strftime).

Lemma fetched_record_truthy (j : Z) (r : dict) :
  fetch j = Ok (Some r) → truthy (PDict r) = true.
Proof.
  intros (resp & data & _ & _ & _ & Hrec)%get_probe_info_some.
  by apply probe_record_inv
    in Hrec as (d & lon & lat & st & first & last & tags & _ & _ & _ & _ & _ & _ & ->).
Qed.

Lemma main_loop_map (ids : list Z) (probes : list dict) :
  loop ids probes = (infos ← mapM fetch ids; Ok (probes ++ omap id infos)).
Proof.
  revert probes. induction ids as [|i ids IH]; intros probes.
  - simpl. by rewrite app_nil_r.
  - cbn [Fetcher.main_loop mapM].
    destruct (fetch i) as [[r|]|e] eqn:Hi; cbn -[truthy mapM]; [| |done].
    + rewrite (fetched_record_truthy i r Hi), IH.
      destruct (mapM fetch ids) as [infos|]; cbn; [|done].
      by rewrite <- app_assoc.
    + rewrite IH. by destruct (mapM fetch ids).
Qed.

Lemma main_loop_raises (before after : list Z) (j : Z) (probes : list dict) (e : exn) :
  Forall (λ i, ∃ info, fetch i = Ok info) before →
  fetch j = Raise e →
  loop (before ++ j :: after) probes = Raise e.
Proof.
  intros Hbefore Hj. revert probes.
  induction Hbefore as [|i before [info Hi] _ IH]; intros probes; simpl.
  - by rewrite Hj.
  - rewrite Hi. simpl. apply IH.
Qed.

End driver_loop.

(** X8: the loop of the driver fetches the identifiers in order and keeps the
    records of those that gave one, in that order, after the records it
    started with: a record that was fetched is never dropped by the test
    [if info], and the first exception of a fetch is the result of the
    loop. *)
Theorem driver_loop_keeps_fetched (requests_get : string → result response)
    (fromtimestamp_strftime : pyval → result string) (ids : list Z)
    (probes : list dict) :
  main_loop requests_get fromtimestamp_strftime ids probes
  = (infos ← mapM (get_probe_info requests_get fromtimestamp_strftime) ids;
     Ok (probes ++ omap id infos)).
Proof. apply main_loop_map. Qed.

(** X9: a fetch that raises ends the loop of the driver with its exception,
    once the identifiers before it were fetched without one; this is so when
    the request itself raises, when the body of a 200 response is not JSON,
    and when building the record from the body raises.  Such an identifier
    is not skipped. *)
Theorem fetch_exception_aborts (requests_get : string → result response)
    (fromtimestamp_strftime : pyval → result string) (before after : list Z)
    (j : Z) (probes : list dict) (e : exn) :
  Forall (λ i, ∃ info,
            get_probe_info requests_get fromtimestamp_strftime i = Ok info) before →
  requests_get (API_URL_format (pretty j)) = Raise e ∨
  (∃ resp, requests_get (API_URL_format (pretty j)) = Ok resp ∧
           status_code resp = 200 ∧
           (json resp = Raise e ∨
            ∃ data, json resp = Ok data ∧
                    probe_record fromtimestamp_strftime data = Raise e)) →
  get_probe_info requests_get fromtimestamp_strftime j = Raise e ∧
  main_loop requests_get fromtimestamp_strftime (before ++ j :: after) probes
  = Raise e.
Proof.
  intros Hbefore Hcause.
  assert (get_probe_info requests_get fromtimestamp_strftime j = Raise e) as Hj.
  { unfold get_probe_info.
    destruct Hcause as [->|(resp & -> & Hs & [Hjson|(data & Hjson & Hrec)])]; [done|..].
    - simpl. rewrite Hs. simpl. by rewrite Hjson.
    - simpl. rewrite Hs. simpl. rewrite Hjson. simpl. by rewrite Hrec. }
  split; [done|]. by apply main_loop_raises.
Qed.

(** Probe 1 is fetched, the request for probe 2 raises, probe 3 is never
    asked for. *)
Lemma fetch_exception_aborts_witness :
  Forall (λ i, ∃ info,
            get_probe_info Cases.unreachable Scenario.paris_time i = Ok info) [1] ∧
  Cases.unreachable (API_URL_format (pretty 2)) = Raise ConnectionError ∧
  get_probe_info Cases.unreachable Scenario.paris_time 2 = Raise ConnectionError ∧
  main_loop Cases.unreachable Scenario.paris_time ([1] ++ 2 :: [3]) []
  = Raise ConnectionError.
Proof.
  assert (Forall (λ i, ∃ info,
            get_probe_info Cases.unreachable Scenario.paris_time i = Ok info) [1])
    as Hbefore.
  { constructor; [by eexists|constructor]. }
  split; [exact Hbefore|]. split; [reflexivity|].
  exact (fetch_exception_aborts Cases.unreachable Scenario.paris_time [1] [3] 2 []
           ConnectionError Hbefore (or_introl eq_refl)).
Defined.

(** ** The exporter: what it writes and what it leaves alone *)

Section exporter_more.

Variable writable : string → bool.
Variable csv_writer : list string → list dict → string * option exn.
Variable json_dump : list dict → string * option exn.
Variable str : pyval → string.

Lemma only_file_refl (filename : string) (w : world) : only_file filename w w.
Proof. by split. Qed.

Lemma only_file_trans (filename : string) (w1 w2 w3 : world) :
  only_file filename w1 w2 → only_file filename w2 w3 → only_file filename w1 w3.
Proof.
  intros [H1 H1'] [H2 H2']. split; [|congruence].
  intros other Hother. by rewrite H2, H1.
Qed.

Lemma only_file_write (filename text : string) (w : world) :
  only_file filename w (write filename text w).
Proof. split; [|done]. intros other Hother. simpl. by rewrite lookup_alter_ne. Qed.

Lemma only_file_open (filename : string) (w w1 : world) :
  open_w writable filename w = Ok w1 → only_file filename w w1.
Proof.
  unfold open_w. destruct (writable filename); [|done]. intros [= <-].
  split; [|done]. intros other Hother. simpl. by rewrite lookup_insert_ne.
Qed.

Lemma open_raises (filename : string) (w : world) (e : exn) :
  open_w writable filename w = Raise e → writable filename = false ∧ e = OSError.
Proof. unfold open_w. destruct (writable filename); [done|]. by intros [= <-]. Qed.

Lemma only_file_write_all (filename : string) (texts : list (result string))
    (w : world) :
  only_file filename w (write_all filename texts w).1.
Proof.
  revert w. induction texts as [|[text|e] texts IH]; intros w; simpl.
  - apply only_file_refl.
  - eapply only_file_trans; [apply only_file_write|apply IH].
  - apply only_file_refl.
Qed.

Lemma only_file_write_file (probes : list dict) (filename output_format : string)
    (w : world) :
  only_file filename w
    (write_file writable csv_writer json_dump str probes filename output_format w).1.
Proof.
  unfold write_file.
  destruct (String.eqb output_format "csv");
    [|destruct (String.eqb output_format "json");
      [|destruct (String.eqb output_format "txt")]].
  - destruct probes as [|first rest]; [apply only_file_refl|].
    destruct (open_w writable filename w) as [w1|] eqn:Hopen; [|apply only_file_refl].
    destruct (csv_writer _ _) as [text e]. simpl.
    eapply only_file_trans; [by apply only_file_open|apply only_file_write].
  - destruct (open_w writable filename w) as [w1|] eqn:Hopen; [|apply only_file_refl].
    destruct (json_dump _) as [text e]. simpl.
    eapply only_file_trans; [by apply only_file_open|apply only_file_write].
  - destruct (open_w writable filename w) as [w1|] eqn:Hopen; [|apply only_file_refl].
    eapply only_file_trans; [by apply only_file_open|apply only_file_write_all].
  - apply only_file_refl.
Qed.

Lemma export_data_effects (probes : list dict) (filename output_format : string)
    (w : world) :
  let '(w', raised) :=
    export_data writable csv_writer json_dump str probes filename output_format w in
  (∀ other, other ≠ filename → files w' !! other = files w !! other) ∧
  match raised with
  | None =>
      stdout w' = stdout w ++ [if probes is [] then nothing_to_export
                               else exported_to filename]
  | Some _ => stdout w' = stdout w
  end.
Proof.
  unfold export_data. destruct probes as [|probe rest]; [done|].
  pose proof (only_file_write_file (probe :: rest) filename output_format w) as [Hf Hs].
  destruct (write_file _ _ _ _ _ _ _ _) as [w1 [e|]]; simpl in *; [done|].
  split; [done|]. by rewrite Hs.
Qed.

End exporter_more.

(** X10: whatever the records, the format, the file system and the writers of
    the libraries, the exporter changes no file but the one it is given; it
    prints one line when it returns, the line of the empty list or the line
    of success, and nothing when it raises. *)
Theorem export_touches_one_file (writable : string → bool)
    (csv_writer : list string → list dict → string * option exn)
    (json_dump : list dict → string * option exn) (str : pyval → string)
    (probes : list dict) (filename output_format : string) (w w' : world)
    (raised : option exn) :
  export_data writable csv_writer json_dump str probes filename output_format w
  = (w', raised) →
  (∀ other, other ≠ filename → files w' !! other = files w !! other) ∧
  (raised = None →
   stdout w' = stdout w ++ [if probes is [] then nothing_to_export
                            else exported_to filename]) ∧
  (raised ≠ None → stdout w' = stdout w).
Proof.
  intros Hrun.
  pose proof (export_data_effects writable csv_writer json_dump str probes
                filename output_format w) as H.
  rewrite Hrun in H. destruct H as [Hfiles Hout].
  split; [done|]. split.
  - by intros ->.
  - by destruct raised.
Qed.

(** Record 2 written as text over an old file, beside another file. *)
Lemma export_touches_one_file_witness :
  export_data Scenario.any_file Scenario.failing_csv Scenario.failing_json
    Scenario.show [Scenario.probe2] "probes.txt" "txt" Cases.two_files
  = (mk_world {["probes.txt" := Scenario.block2; "notes.md" := "keep"]}
       [exported_to "probes.txt"], None) ∧
  ({["probes.txt" := Scenario.block2; "notes.md" := "keep"]} : gmap string string)
    !! "notes.md" = files Cases.two_files !! "notes.md".
Proof.
  assert (export_data Scenario.any_file Scenario.failing_csv Scenario.failing_json
            Scenario.show [Scenario.probe2] "probes.txt" "txt" Cases.two_files
          = (mk_world {["probes.txt" := Scenario.block2; "notes.md" := "keep"]}
               [exported_to "probes.txt"], None)) as Hrun
    by (vm_compute; reflexivity).
  split; [exact Hrun|].
  apply (proj1 (export_touches_one_file _ _ _ _ _ _ _ _ _ _ Hrun) "notes.md").
  discriminate.
Defined.

(** X11: when the file cannot be opened for writing, exporting a list that is
    not empty in one of the three formats raises [OSError] and leaves the
    world as it was: no file is changed and nothing is printed. *)
Theorem export_open_failure (writable : string → bool)
    (csv_writer : list string → list dict → string * option exn)
    (json_dump : list dict → string * option exn) (str : pyval → string)
    (probes : list dict) (filename output_format : string) (w : world) :
  probes ≠ [] → known_format output_format → writable filename = false →
  export_data writable csv_writer json_dump str probes filename output_format w
  = (w, Some OSError).
Proof.
  intros Hprobes Hformat Hopen. destruct probes as [|probe rest]; [done|].
  unfold export_data, write_file, open_w. rewrite Hopen.
  by destruct Hformat as [->|[->| ->]].
Qed.

(** Record 2 as JSON where no file can be written. *)
Lemma export_open_failure_witness :
  [Scenario.probe2] ≠ [] ∧ known_format "json" ∧
  Scenario.read_only "probes.json" = false ∧
  export_data Scenario.read_only Scenario.failing_csv Scenario.failing_json
    Scenario.show [Scenario.probe2] "probes.json" "json" Cases.two_files
  = (Cases.two_files, Some OSError).
Proof.
  assert ([Scenario.probe2] ≠ []) as Hprobes by discriminate.
  assert (known_format "json") as Hformat by (right; by left).
  split; [exact Hprobes|]. split; [exact Hformat|]. split; [reflexivity|].
  exact (export_open_failure Scenario.read_only Scenario.failing_csv
           Scenario.failing_json Scenario.show [Scenario.probe2] "probes.json"
           "json" Cases.two_files Hprobes Hformat eq_refl).
Defined.

Section text_export.

Variable writable : string → bool.
Variable csv_writer : list string → list dict → string * option exn.
Variable json_dump : list dict → string * option exn.
Variable str : pyval → string.

Lemma concat_empty_cons (text : string) (texts : list string) :
  String.concat "" (text :: texts) = text +:+ String.concat "" texts.
Proof.
  destruct texts as [|next texts]; simpl.
  - symmetry. induction text as [|a text IH]; [done|]. by rewrite app_cons, IH.
  - by rewrite app_nil.
Qed.

Lemma concat_empty_app (xs ys : list string) :
  String.concat "" (xs ++ ys) = String.concat "" xs +:+ String.concat "" ys.
Proof.
  induction xs as [|x xs IH]; [done|].
  change ((x :: xs) ++ ys) with (x :: (xs ++ ys)).
  by rewrite !concat_empty_cons, IH, app_assoc_text.
Qed.

(** Writing texts one after the other to a file that holds [content]. *)
Lemma write_all_texts (filename content : string) (texts : list string)
    (m : gmap string string) (out : list string) :
  write_all filename (Ok <$> texts) (mk_world (<[filename := content]> m) out)
  = (mk_world (<[filename := content +:+ String.concat "" texts]> m) out, None).
Proof.
  revert content. induction texts as [|text texts IH]; intros content.
  - simpl. do 3 f_equal. symmetry.
    induction content as [|a content IHc]; [done|]. by rewrite app_cons, IHc.
  - cbn [fmap list_fmap write_all]. unfold write at 1. cbn [files stdout].
    rewrite alter_insert_eq. fold (fmap (M:=list) (@Ok string) texts).
    by rewrite IH, concat_empty_cons, app_assoc_text.
Qed.

Lemma write_all_raise (filename content : string) (texts : list string)
    (e : exn) (rest : list (result string)) (m : gmap string string)
    (out : list string) :
  write_all filename ((Ok <$> texts) ++ Raise e :: rest)
    (mk_world (<[filename := content]> m) out)
  = (mk_world (<[filename := content +:+ String.concat "" texts]> m) out, Some e).
Proof.
  revert content. induction texts as [|text texts IH]; intros content.
  - simpl. do 3 f_equal. symmetry.
    induction content as [|a content IHc]; [done|]. by rewrite app_cons, IHc.
  - cbn [fmap list_fmap app write_all]. unfold write at 1. cbn [files stdout].
    rewrite alter_insert_eq. fold (fmap (M:=list) (@Ok string) texts).
    by rewrite IH, concat_empty_cons, app_assoc_text.
Qed.

(** The ten writes of a record that has every field. *)
Lemma txt_block_texts (probe : dict) :
  has_fields probe →
  ∃ texts, txt_block str probe = Ok <$> texts ∧
           String.concat "" texts = expected_block str probe.
Proof.
  unfold has_fields, field_names. rewrite !Forall_cons.
  intros ([v1 H1] & [v2 H2] & [v3 H3] & [v4 H4] & [v5 H5] & [v6 H6] & [v7 H7]
          & [v8 H8] & [v9 H9] & [v10 H10] & _).
  exists ["ID: " +:+ str v1 +:+ newline; "IPv4: " +:+ str v2 +:+ newline;
          "ASN: " +:+ str v3 +:+ newline; "Pays: " +:+ str v4 +:+ newline;
          "Longitude: " +:+ str v5 +:+ ", Latitude: " +:+ str v6 +:+ newline;
          "Status: " +:+ str v7 +:+ newline;
          "First Connected: " +:+ str v8 +:+ newline;
          "Last Connected: " +:+ str v9 +:+ newline;
          "Tags: " +:+ str v10 +:+ newline;
          "----------------------------------------" +:+ newline].
  split.
  - unfold txt_block, getitem.
    rewrite H1, H2, H3, H4, H5, H6, H7, H8, H9, H10. reflexivity.
  - unfold expected_block. rewrite H1, H2, H3, H4, H5, H6, H7, H8, H9, H10.
    cbn [default from_option id].
    rewrite !concat_empty_cons. cbn [String.concat].
    rewrite !app_assoc_text. reflexivity.
Qed.

End text_export.

Section text_export_results.

Variable writable : string → bool.
Variable csv_writer : list string → list dict → string * option exn.
Variable json_dump : list dict → string * option exn.
Variable str : pyval → string.

Lemma blocks_texts (probes : list dict) :
  Forall has_fields probes →
  ∃ texts, probes ≫= txt_block str = Ok <$> texts ∧
           String.concat "" texts = String.concat "" (expected_block str <$> probes).
Proof.
  induction 1 as [|p ps Hp _ (texts & Hps & Htexts)]; [by exists []|].
  destruct (txt_block_texts str p Hp) as (block & Hblock & Hcat).
  exists (block ++ texts). split.
  - rewrite bind_cons, Hblock, Hps. by rewrite fmap_app.
  - rewrite fmap_cons, concat_empty_app, concat_empty_cons. by rewrite Hcat, Htexts.
Qed.

Ltac in_field_names :=
  unfold field_names;
  repeat first [apply list_elem_of_here | apply list_elem_of_further].

Lemma txt_block_cases (probe : dict) :
  has_fields probe ∨
  ∃ texts key rest,
    txt_block str probe = (Ok <$> texts) ++ Raise (KeyError key) :: rest ∧
    key ∈ field_names ∧ dict_lookup probe key = None.
Proof.
  unfold has_fields, txt_block, getitem.
  destruct (dict_lookup probe "ID") as [v1|] eqn:H1;
    [|right; eexists [], _, _; split; [reflexivity|]; split; [in_field_names|done]].
  destruct (dict_lookup probe "IPv4") as [v2|] eqn:H2;
    [|right; eexists [_], _, _; split; [reflexivity|]; split; [in_field_names|done]].
  destruct (dict_lookup probe "ASN") as [v3|] eqn:H3;
    [|right; eexists [_; _], _, _; split; [reflexivity|]; split;
      [in_field_names|done]].
  destruct (dict_lookup probe "Pays") as [v4|] eqn:H4;
    [|right; eexists [_; _; _], _, _; split; [reflexivity|]; split;
      [in_field_names|done]].
  destruct (dict_lookup probe "Longitude") as [v5|] eqn:H5;
    [|right; eexists [_; _; _; _], _, _; split; [reflexivity|]; split;
      [in_field_names|done]].
  destruct (dict_lookup probe "Latitude") as [v6|] eqn:H6;
    [|right; eexists [_; _; _; _], _, _; split; [reflexivity|]; split;
      [in_field_names|done]].
  destruct (dict_lookup probe "Status") as [v7|] eqn:H7;
    [|right; eexists [_; _; _; _; _], _, _; split; [reflexivity|]; split;
      [in_field_names|done]].
  destruct (dict_lookup probe "First Connected") as [v8|] eqn:H8;
    [|right; eexists [_; _; _; _; _; _], _, _; split; [reflexivity|]; split;
      [in_field_names|done]].
  destruct (dict_lookup probe "Last Connected") as [v9|] eqn:H9;
    [|right; eexists [_; _; _; _; _; _; _], _, _; split; [reflexivity|]; split;
      [in_field_names|done]].
  destruct (dict_lookup probe "Tags") as [v10|] eqn:H10;
    [|right; eexists [_; _; _; _; _; _; _; _], _, _; split; [reflexivity|]; split;
      [in_field_names|done]].
  left. unfold field_names.
  rewrite !Forall_cons, Forall_nil, H1, H2, H3, H4, H5, H6, H7, H8, H9, H10.
  repeat split; by eexists.
Qed.

Lemma export_txt_runs (probe : dict) (rest : list dict) (filename : string)
    (w : world) :
  writable filename = true →
  export_data writable csv_writer json_dump str (probe :: rest) filename "txt" w
  = match write_all filename ((probe :: rest) ≫= txt_block str)
            (mk_world (<[filename := ""]> (files w)) (stdout w)) with
    | (w1, None) => (print (exported_to filename) w1, None)
    | (w1, Some e) => (w1, Some e)
    end.
Proof.
  intros Hopen. unfold export_data, write_file, open_w. rewrite Hopen. reflexivity.
Qed.

End text_export_results.

(** X12: in the text format, when the file can be opened and every record has
    its ten fields, the file is replaced by the blocks of the records in
    order, each made of nine lines that label the ten fields, Longitude and
    Latitude sharing the fifth, and of a line of forty dashes; the other
    files are kept and the line of success is printed. *)
Theorem export_txt_content (writable : string → bool)
    (csv_writer : list string → list dict → string * option exn)
    (json_dump : list dict → string * option exn) (str : pyval → string)
    (probes : list dict) (filename : string) (w : world) :
  probes ≠ [] → writable filename = true → Forall has_fields probes →
  export_data writable csv_writer json_dump str probes filename "txt" w
  = (mk_world
       (<[filename := String.concat "" (expected_block str <$> probes)]> (files w))
       (stdout w ++ [exported_to filename]), None).
Proof.
  intros Hprobes Hopen Hfields. destruct probes as [|probe rest]; [done|].
  rewrite export_txt_runs by done.
  destruct (blocks_texts str _ Hfields) as (texts & -> & <-).
  by rewrite write_all_texts, app_nil.
Qed.

(** Record 2 written over an old file. *)
Lemma export_txt_content_witness :
  [Scenario.probe2] ≠ [] ∧ Scenario.any_file "probes.txt" = true ∧
  Forall has_fields [Scenario.probe2] ∧
  expected_block Scenario.show Scenario.probe2 = Scenario.block2 ∧
  export_data Scenario.any_file Scenario.failing_csv Scenario.failing_json
    Scenario.show [Scenario.probe2] "probes.txt" "txt" Cases.two_files
  = (mk_world
       (<["probes.txt" := String.concat ""
                            (expected_block Scenario.show <$> [Scenario.probe2])]>
          (files Cases.two_files))
       (stdout Cases.two_files ++ [exported_to "probes.txt"]), None).
Proof.
  assert ([Scenario.probe2] ≠ []) as Hprobes by discriminate.
  assert (Forall has_fields [Scenario.probe2]) as Hfields.
  { constructor; [|constructor]. unfold has_fields, field_names.
    repeat (constructor; [by eexists|]). constructor. }
  split; [exact Hprobes|]. split; [reflexivity|]. split; [exact Hfields|].
  split; [reflexivity|].
  exact (export_txt_content Scenario.any_file Scenario.failing_csv
           Scenario.failing_json Scenario.show [Scenario.probe2] "probes.txt"
           Cases.two_files Hprobes eq_refl Hfields).
Defined.

Lemma expected_lines_block (str : pyval → string) (probe : dict) :
  String.concat "" (expected_lines str probe) = expected_block str probe.
Proof.
  unfold expected_lines, expected_block.
  rewrite !concat_empty_cons. cbn [String.concat].
  rewrite !app_assoc_text. reflexivity.
Qed.

Lemma concat_line_fields : concat line_fields = field_names.
Proof. reflexivity. Qed.

(** The writes of a record that lacks [key], the fields read before it being
    there: the first [n] lines, then [KeyError]. *)
Lemma txt_block_missing (str : pyval → string) (p : dict) (n : nat)
    (read unread : list string) (key : string) :
  line_fields !! n = Some (read ++ key :: unread) →
  Forall (λ k, is_Some (dict_lookup p k)) (concat (take n line_fields) ++ read) →
  dict_lookup p key = None →
  ∃ rest, txt_block str p
          = (Ok <$> take n (expected_lines str p)) ++ Raise (KeyError key) :: rest.
Proof.
  intros Hline Hread Hkey. unfold line_fields in Hline, Hread.
  do 9 (destruct n as [|n];
    [cbn in Hline; injection Hline as Hline;
     destruct read as [|r1 [|r2 [|r3 read]]]; simplify_eq/=;
     repeat match goal with
            | H : Forall _ (_ :: _) |- _ => apply Forall_cons in H as [[? ?] H]
            end;
     unfold txt_block, expected_lines, getitem;
     repeat match goal with
            | H : dict_lookup p _ = _ |- _ => rewrite H
            end;
     eexists; reflexivity|]).
  done.
Qed.

(** X13: in the text format, when the file can be opened, the records before
    [p] have their ten fields, and [p] lacks the field [key] read in the line
    of index [n] while it has the fields read before it, the exporter raises
    [KeyError] with that field; the file is left holding exactly the blocks
    of the records before [p] followed by the first [n] lines of [p], and the
    line of success is not printed. *)
Theorem export_txt_missing_field (writable : string → bool)
    (csv_writer : list string → list dict → string * option exn)
    (json_dump : list dict → string * option exn) (str : pyval → string)
    (before after : list dict) (p : dict) (filename : string) (w : world)
    (n : nat) (read unread : list string) (key : string) :
  writable filename = true → Forall has_fields before →
  line_fields !! n = Some (read ++ key :: unread) →
  Forall (λ k, is_Some (dict_lookup p k)) (concat (take n line_fields) ++ read) →
  dict_lookup p key = None →
  export_data writable csv_writer json_dump str (before ++ p :: after)
    filename "txt" w
  = (mk_world
       (<[filename := String.concat "" (expected_block str <$> before)
                       +:+ String.concat "" (take n (expected_lines str p))]>
          (files w))
       (stdout w), Some (KeyError key)).
Proof.
  intros Hopen Hbefore Hline Hread Hkey.
  destruct (txt_block_missing str p n read unread key Hline Hread Hkey)
    as [rest Hblock].
  destruct (blocks_texts str _ Hbefore) as (blocks & Hblocks & Hcat).
  assert (∃ probe tail, before ++ p :: after = probe :: tail) as (probe & tail & Hlist)
    by (destruct before; by eexists _, _).
  rewrite Hlist, export_txt_runs by done. rewrite <- Hlist.
  rewrite bind_app, bind_cons, Hblocks, Hblock.
  rewrite <- (assoc_L (++) (Ok <$> take n (expected_lines str p))),
    (assoc_L (++) (Ok <$> blocks)).
  rewrite <- fmap_app, <- app_comm_cons.
  rewrite write_all_raise, app_nil, concat_empty_app. by rewrite Hcat.
Qed.

(** Record 2, then record 2 without its Status, then record 1: the file is
    left with the block of record 2 and the first five lines of the second
    record; record 1 is never written. *)
Lemma export_txt_missing_field_witness :
  Scenario.any_file "probes.txt" = true ∧ Forall has_fields [Scenario.probe2] ∧
  line_fields !! 5%nat = Some ([] ++ "Status" :: []) ∧
  Forall (λ k, is_Some (dict_lookup Cases.probe2_no_status k))
    (concat (take 5 line_fields) ++ []) ∧
  dict_lookup Cases.probe2_no_status "Status" = None ∧
  String.concat "" (take 5 (expected_lines Scenario.show Cases.probe2_no_status))
  = "ID: 2" +:+ newline +:+ "IPv4: N/A" +:+ newline +:+ "ASN: N/A" +:+ newline +:+
    "Pays: US" +:+ newline +:+ "Longitude: N/A, Latitude: N/A" +:+ newline ∧
  export_data Scenario.any_file Scenario.failing_csv Scenario.failing_json
    Scenario.show ([Scenario.probe2] ++ Cases.probe2_no_status :: [Scenario.probe1])
    "probes.txt" "txt" Cases.two_files
  = (mk_world
       (<["probes.txt" := String.concat ""
                            (expected_block Scenario.show <$> [Scenario.probe2])
                          +:+ String.concat ""
                                (take 5 (expected_lines Scenario.show
                                           Cases.probe2_no_status))]>
          (files Cases.two_files))
       (stdout Cases.two_files), Some (KeyError "Status")).
Proof.
  assert (Forall has_fields [Scenario.probe2]) as Hfields.
  { constructor; [|constructor]. unfold has_fields, field_names.
    repeat (constructor; [by eexists|]). constructor. }
  assert (Forall (λ k, is_Some (dict_lookup Cases.probe2_no_status k))
            (concat (take 5 line_fields) ++ [])) as Hread.
  { cbn [line_fields take concat app]. repeat (constructor; [by eexists|]).
    constructor. }
  split; [reflexivity|]. split; [exact Hfields|]. split; [reflexivity|].
  split; [exact Hread|]. do 2 (split; [reflexivity|]).
  exact (export_txt_missing_field Scenario.any_file Scenario.failing_csv
           Scenario.failing_json Scenario.show [Scenario.probe2] [Scenario.probe1]
           Cases.probe2_no_status "probes.txt" Cases.two_files 5 [] [] "Status"
           eq_refl Hfields eq_refl Hread eq_refl).
Defined.

(** ** File names again *)

Lemma all_dots_app (a b : string) : all_dots (a +:+ b) = all_dots a && all_dots b.
Proof.
  induction a as [|x a IH]; [done|]. rewrite app_cons. simpl.
  by rewrite IH, andb_assoc.
Qed.

Lemma canonical_extension_shape (output_format : string) :
  ∃ e, canonical_extension output_format = "." +:+ e ∧
       occurs "." e = false ∧ occurs "/" e = false.
Proof.
  unfold canonical_extension.
  destruct (String.eqb output_format "json"); [by exists "json"|].
  destruct (String.eqb output_format "txt"); [by exists "txt"|by exists "csv"].
Qed.

Lemma splitext_root (dir comp : string) :
  is_dir_prefix dir → occurs "/" comp = false → all_dots comp = false →
  ∃ name, (splitext (dir +:+ comp)).1 = dir +:+ name ∧
          occurs "/" name = false ∧ all_dots name = false.
Proof.
  intros Hdir Hsep Hdots. destruct (occurs "." comp) eqn:Hdot.
  - apply occurs_split in Hdot as (q & e & -> & He).
    rewrite occurs_app in Hsep. simpl in Hsep.
    apply orb_false_elim in Hsep as [Hq He'].
    destruct (all_dots q) eqn:Hall.
    + exists (q +:+ String "." e). split; [|split; [|done]].
      * replace (q +:+ String "." e) with ((q +:+ ".") +:+ e)
          by by rewrite app_assoc_text.
        rewrite splitext_no_extension; [done|done| |done|done].
        by rewrite all_dots_app, Hall.
      * by rewrite occurs_app, Hq.
    + exists q. split; [|done].
      change (String "." e) with ("." +:+ e). by rewrite splitext_extension.
  - exists comp. split; [|done].
    rewrite <- (app_nil comp) at 1. by rewrite splitext_no_extension.
Qed.

Lemma app_nil_end (t : string) : t +:+ EmptyString = t.
Proof. induction t as [|a t IH]; [done|]. by rewrite app_cons, IH. Qed.

(** X14: for a base whose file name has a character other than a dot, the name
    computed for one format and then for another is the name computed for the
    other: the extension is exchanged, never stacked, and computing twice for
    one format changes nothing.  For a base whose file name is empty or made
    of dots only, the extension is stacked: the second name is the base
    followed by the extension of the first format and then that of the
    second, for any two formats. *)
Theorem output_filename_retarget :
  (∀ dir comp first_format second_format : string,
     is_dir_prefix dir → occurs "/" comp = false → all_dots comp = false →
     get_output_filename (get_output_filename (dir +:+ comp) first_format)
       second_format
     = get_output_filename (dir +:+ comp) second_format) ∧
  (∀ dir dots first_format second_format : string,
     is_dir_prefix dir → all_dots dots = true →
     get_output_filename (get_output_filename (dir +:+ dots) first_format)
       second_format
     = dir +:+ dots +:+ canonical_extension first_format
         +:+ canonical_extension second_format).
Proof.
  split.
  - intros dir comp f g Hdir Hsep Hdots. unfold get_output_filename.
    rewrite !extension_table.
    destruct (splitext_root dir comp Hdir Hsep Hdots) as (name & -> & Hname & Hall).
    destruct (canonical_extension_shape f) as (e & -> & He & He').
    simpl fst. rewrite (app_assoc_text dir name), splitext_extension by done.
    done.
  - intros dir dots f g Hdir Hdots. unfold get_output_filename.
    rewrite !extension_table.
    destruct (canonical_extension_shape f) as (e & -> & He & He').
    assert (splitext (dir +:+ dots) = (dir +:+ dots, EmptyString)) as ->.
    { rewrite <- (app_nil_end dots) at 1 2. by apply splitext_no_extension. }
    simpl fst.
    replace ((dir +:+ dots) +:+ "." +:+ e) with (dir +:+ (dots +:+ ".") +:+ e)
      by by rewrite !app_assoc_text.
    rewrite (splitext_no_extension dir (dots +:+ ".") e); [|done| |done|done].
    + simpl fst. by rewrite !app_assoc_text.
    + by rewrite all_dots_app, Hdots.
Qed.

(** "out/probes.old" as text and then as JSON; the empty base as text and
    then as JSON. *)
Lemma output_filename_retarget_witness :
  is_dir_prefix "out/" ∧ occurs "/" "probes.old" = false ∧
  all_dots "probes.old" = false ∧
  get_output_filename ("out/" +:+ "probes.old") "txt" = "out/probes.txt" ∧
  get_output_filename ("out/" +:+ "probes.old") "json" = "out/probes.json" ∧
  get_output_filename (get_output_filename ("out/" +:+ "probes.old") "txt") "json"
  = get_output_filename ("out/" +:+ "probes.old") "json" ∧
  is_dir_prefix "" ∧ all_dots "" = true ∧
  get_output_filename ("" +:+ "") "txt" = ".txt" ∧
  "" +:+ "" +:+ canonical_extension "txt" +:+ canonical_extension "json"
  = ".txt.json" ∧
  get_output_filename (get_output_filename ("" +:+ "") "txt") "json"
  = "" +:+ "" +:+ canonical_extension "txt" +:+ canonical_extension "json".
Proof.
  assert (is_dir_prefix "out/") as Hdir by (right; by exists "out").
  assert (is_dir_prefix "") as Hempty by by left.
  split; [exact Hdir|]. do 4 (split; [reflexivity|]).
  split; [|split; [exact Hempty|do 3 (split; [reflexivity|])]].
  - exact (proj1 output_filename_retarget "out/" "probes.old" "txt" "json" Hdir
             eq_refl eq_refl).
  - exact (proj2 output_filename_retarget "" "" "txt" "json" Hempty eq_refl).
Defined.

(** ** The driver *)

Example strptime_date_threshold :
  StrptimeDate.strptime "2021-01-01" = Some Scenario.threshold.
Proof. reflexivity. Qed.

Example strptime_date_rejects_month_13 : StrptimeDate.strptime "2021-13-01" = None.
Proof. reflexivity. Qed.

Example main_scenario :
  Driver.main Scenario.server Scenario.paris_time Strptime.strptime
    StrptimeDate.strptime Scenario.any_file Scenario.failing_csv
    Scenario.failing_json Scenario.show Cases.args Cases.two_files
  = (mk_world {["probes.txt" := Scenario.block2; "notes.md" := "keep"]}
       [exported_to "probes.txt"], None).
Proof. vm_compute. reflexivity. Qed.

Section driver_facts.

Variable requests_get : string → result response.
Variable fromtimestamp_strftime : pyval → result string.
Variable strptime : string → option datetime.
Variable strptime_date : string → option datetime.
Variable writable : string → bool.
Variable csv_writer : list string → list dict → string * option exn.
Variable json_dump : list dict → string * option exn.
Variable str : pyval → string.

#[local] Abbreviation run :=
  (Driver.main requests_get fromtimestamp_strftime strptime strptime_date writable
     csv_writer json_dump str).

Lemma after_option_malformed (text : string) :
  text ≠ "" → strptime_date text = None →
  Driver.after_option strptime_date (Some text) = Raise ValueError.
Proof.
  intros Htext Hparse. unfold Driver.after_option. simpl.
  apply String.eqb_neq in Htext as ->. simpl. by rewrite Hparse.
Qed.

Lemma main_loop_none (ids : list Z) (probes : list dict) :
  Forall (λ j, get_probe_info requests_get fromtimestamp_strftime j = Ok None) ids →
  main_loop requests_get fromtimestamp_strftime ids probes = Ok probes.
Proof.
  induction 1 as [|j ids Hj _ IH]; simpl; [done|]. by rewrite Hj.
Qed.

Lemma main_effects (args : Driver.namespace) (w : world) :
  let '(w', raised) := run args w in
  (∀ other,
     other ≠ get_output_filename (Driver.output args) (Driver.format args) →
     files w' !! other = files w !! other) ∧
  match raised with
  | None => ∃ line, stdout w' = stdout w ++ [line]
  | Some _ => stdout w' = stdout w
  end.
Proof.
  unfold Driver.main.
  destruct (Driver.after_option _ (Driver.first_connected_after args)); [|done].
  destruct (Driver.after_option _ (Driver.last_connected_after args)); [|done].
  destruct (collect_probes _ _ _ _) as [probes|]; [|done].
  destruct (filter_probes _ _ _ _ _ _ _) as [filtered|]; [|done].
  pose proof (export_data_effects writable csv_writer json_dump str filtered
                (get_output_filename (Driver.output args) (Driver.format args))
                (Driver.format args) w) as H.
  destruct (export_data _ _ _ _ _ _ _ _) as [w' [e|]]; [done|].
  destruct H as [Hfiles Hout]. split; [done|]. by eexists.
Qed.

End driver_facts.

(** X15: a date option that is given, not empty and does not parse as
    year-month-day ends the run with [ValueError] before anything else
    happens: whatever the server answers, no file is changed and nothing is
    printed.  This holds for the first date, and for the second when the
    first is absent or parses. *)
Theorem malformed_date_fails_fast (requests_get : string → result response)
    (fromtimestamp_strftime : pyval → result string)
    (strptime strptime_date : string → option datetime)
    (writable : string → bool)
    (csv_writer : list string → list dict → string * option exn)
    (json_dump : list dict → string * option exn) (str : pyval → string)
    (args : Driver.namespace) (w : world) (text : string) :
  text ≠ "" → strptime_date text = None →
  Driver.first_connected_after args = Some text ∨
  ((∃ first, Driver.after_option strptime_date (Driver.first_connected_after args)
             = Ok first) ∧
   Driver.last_connected_after args = Some text) →
  Driver.main requests_get fromtimestamp_strftime strptime strptime_date writable
    csv_writer json_dump str args w
  = (w, Some ValueError).
Proof.
  intros Htext Hparse [Hfirst|[[first Hfirst] Hlast]]; unfold Driver.main.
  - by rewrite Hfirst, after_option_malformed.
  - by rewrite Hfirst, Hlast, after_option_malformed.
Qed.

(** A thirteenth month, with a server that cannot be reached. *)
Lemma malformed_date_fails_fast_witness :
  "2021-13-01" ≠ "" ∧ StrptimeDate.strptime "2021-13-01" = None ∧
  Driver.first_connected_after Cases.args_bad_date = Some "2021-13-01" ∧
  Driver.main Cases.unreachable Scenario.paris_time Strptime.strptime
    StrptimeDate.strptime Scenario.any_file Scenario.failing_csv
    Scenario.failing_json Scenario.show Cases.args_bad_date Cases.two_files
  = (Cases.two_files, Some ValueError).
Proof.
  assert ("2021-13-01" ≠ "") as Htext by discriminate.
  split; [exact Htext|]. do 2 (split; [reflexivity|]).
  exact (malformed_date_fails_fast Cases.unreachable Scenario.paris_time
           Strptime.strptime StrptimeDate.strptime Scenario.any_file
           Scenario.failing_csv Scenario.failing_json Scenario.show
           Cases.args_bad_date Cases.two_files "2021-13-01" Htext eq_refl
           (or_introl eq_refl)).
Defined.

(** X16: when the two dates are accepted and the request for an identifier of
    the range raises, the identifiers before it having been fetched, the run
    ends with that exception: the records fetched so far are lost, no file is
    changed and nothing is printed. *)
Theorem request_exception_loses_run (requests_get : string → result response)
    (fromtimestamp_strftime : pyval → result string)
    (strptime strptime_date : string → option datetime)
    (writable : string → bool)
    (csv_writer : list string → list dict → string * option exn)
    (json_dump : list dict → string * option exn) (str : pyval → string)
    (args : Driver.namespace) (w : world) (j : Z) (e : exn) :
  (∃ first, Driver.after_option strptime_date (Driver.first_connected_after args)
            = Ok first) →
  (∃ last, Driver.after_option strptime_date (Driver.last_connected_after args)
           = Ok last) →
  Driver.start_id args ≤ j ≤ Driver.end_id args →
  (∀ i, Driver.start_id args ≤ i < j →
        ∃ info, get_probe_info requests_get fromtimestamp_strftime i = Ok info) →
  requests_get (API_URL_format (pretty j)) = Raise e →
  Driver.main requests_get fromtimestamp_strftime strptime strptime_date writable
    csv_writer json_dump str args w
  = (w, Some e).
Proof.
  intros [first Hfirst] [last Hlast] Hj Hbefore Hraise.
  unfold Driver.main. rewrite Hfirst, Hlast.
  unfold collect_probes. rewrite (range_split _ j) by lia.
  rewrite main_loop_raises with (e := e); [done| |].
  - apply Forall_forall. intros i Hi. apply Hbefore.
    unfold range in Hi. apply elem_of_seqZ in Hi. lia.
  - unfold get_probe_info. by rewrite Hraise.
Qed.

(** Probe 1 is fetched, the request for probe 2 raises. *)
Lemma request_exception_loses_run_witness :
  get_probe_info Cases.unreachable Scenario.paris_time 1 = Ok (Some Scenario.probe1) ∧
  Cases.unreachable (API_URL_format (pretty 2)) = Raise ConnectionError ∧
  Driver.main Cases.unreachable Scenario.paris_time Strptime.strptime
    StrptimeDate.strptime Scenario.any_file Scenario.failing_csv
    Scenario.failing_json Scenario.show Cases.args Cases.two_files
  = (Cases.two_files, Some ConnectionError).
Proof.
  split; [reflexivity|]. split; [reflexivity|].
  apply (request_exception_loses_run Cases.unreachable Scenario.paris_time
           Strptime.strptime StrptimeDate.strptime Scenario.any_file
           Scenario.failing_csv Scenario.failing_json Scenario.show Cases.args
           Cases.two_files 2 ConnectionError).
  - by eexists.
  - by eexists.
  - simpl. lia.
  - simpl. intros i Hi. assert (i = 1) as -> by lia. by eexists.
  - reflexivity.
Defined.

(** X17: when the two dates are accepted and every identifier of the range is
    answered with a status other than 200, or the range is empty, the run
    prints that there is nothing to export and changes no file, whatever the
    criteria and the format. *)
Theorem nothing_fetched_nothing_exported (requests_get : string → result response)
    (fromtimestamp_strftime : pyval → result string)
    (strptime strptime_date : string → option datetime)
    (writable : string → bool)
    (csv_writer : list string → list dict → string * option exn)
    (json_dump : list dict → string * option exn) (str : pyval → string)
    (args : Driver.namespace) (w : world) :
  (∃ first, Driver.after_option strptime_date (Driver.first_connected_after args)
            = Ok first) →
  (∃ last, Driver.after_option strptime_date (Driver.last_connected_after args)
           = Ok last) →
  (∀ j, Driver.start_id args ≤ j ≤ Driver.end_id args →
        ∃ resp, requests_get (API_URL_format (pretty j)) = Ok resp ∧
                status_code resp ≠ 200) →
  Driver.main requests_get fromtimestamp_strftime strptime strptime_date writable
    csv_writer json_dump str args w
  = (mk_world (files w) (stdout w ++ [nothing_to_export]), None).
Proof.
  intros [first Hfirst] [last Hlast] Hrange.
  unfold Driver.main. rewrite Hfirst, Hlast.
  unfold collect_probes. rewrite main_loop_none; [done|].
  apply Forall_forall. intros j Hj. unfold range in Hj.
  apply elem_of_seqZ in Hj.
  destruct (Hrange j) as (resp & Hresp & Hstatus); [lia|].
  by eapply get_probe_info_non_200.
Qed.

(** Probes 3 to 5, which the server of the scenarios does not know. *)
Lemma nothing_fetched_nothing_exported_witness :
  (∀ j, Driver.start_id Cases.args_unknown ≤ j ≤ Driver.end_id Cases.args_unknown →
        ∃ resp, Scenario.server (API_URL_format (pretty j)) = Ok resp ∧
                status_code resp ≠ 200) ∧
  Driver.main Scenario.server Scenario.paris_time Strptime.strptime
    StrptimeDate.strptime Scenario.any_file Scenario.failing_csv
    Scenario.failing_json Scenario.show Cases.args_unknown Cases.two_files
  = (mk_world (files Cases.two_files)
       (stdout Cases.two_files ++ [nothing_to_export]), None).
Proof.
  assert (∀ j, Driver.start_id Cases.args_unknown ≤ j
               ≤ Driver.end_id Cases.args_unknown →
               ∃ resp, Scenario.server (API_URL_format (pretty j)) = Ok resp ∧
                       status_code resp ≠ 200) as Hrange.
  { simpl. intros j Hj. exists Scenario.not_found.
    assert (j = 3 ∨ j = 4 ∨ j = 5) as [->|[->| ->]] by lia; by split. }
  split; [exact Hrange|].
  apply (nothing_fetched_nothing_exported Scenario.server Scenario.paris_time
           Strptime.strptime StrptimeDate.strptime Scenario.any_file
           Scenario.failing_csv Scenario.failing_json Scenario.show
           Cases.args_unknown Cases.two_files); [by eexists|by eexists|exact Hrange].
Defined.

(** X18: whatever the command line, the server and the libraries, a run
    changes no file but the one named by the output option with the extension
    of the format; it prints exactly one line when it returns and nothing
    when it raises. *)
Theorem main_touches_one_file (requests_get : string → result response)
    (fromtimestamp_strftime : pyval → result string)
    (strptime strptime_date : string → option datetime)
    (writable : string → bool)
    (csv_writer : list string → list dict → string * option exn)
    (json_dump : list dict → string * option exn) (str : pyval → string)
    (args : Driver.namespace) (w w' : world) (raised : option exn) :
  Driver.main requests_get fromtimestamp_strftime strptime strptime_date writable
    csv_writer json_dump str args w = (w', raised) →
  (∀ other,
     other ≠ get_output_filename (Driver.output args) (Driver.format args) →
     files w' !! other = files w !! other) ∧
  (raised = None → ∃ line, stdout w' = stdout w ++ [line]) ∧
  (raised ≠ None → stdout w' = stdout w).
Proof.
  intros Hrun.
  pose proof (main_effects requests_get fromtimestamp_strftime strptime
                strptime_date writable csv_writer json_dump str args w) as H.
  rewrite Hrun in H. destruct H as [Hfiles Hout].
  split; [done|]. split.
  - by intros ->.
  - by destruct raised.
Qed.

(** The run of the scenario writes "probes.txt" and keeps "notes.md". *)
Lemma main_touches_one_file_witness :
  Driver.main Scenario.server Scenario.paris_time Strptime.strptime
    StrptimeDate.strptime Scenario.any_file Scenario.failing_csv
    Scenario.failing_json Scenario.show Cases.args Cases.two_files
  = (mk_world {["probes.txt" := Scenario.block2; "notes.md" := "keep"]}
       [exported_to "probes.txt"], None) ∧
  ({["probes.txt" := Scenario.block2; "notes.md" := "keep"]} : gmap string string)
    !! "notes.md" = files Cases.two_files !! "notes.md".
Proof.
  assert (Driver.main Scenario.server Scenario.paris_time Strptime.strptime
            StrptimeDate.strptime Scenario.any_file Scenario.failing_csv
            Scenario.failing_json Scenario.show Cases.args Cases.two_files
          = (mk_world {["probes.txt" := Scenario.block2; "notes.md" := "keep"]}
               [exported_to "probes.txt"], None)) as Hrun
    by (vm_compute; reflexivity).
  split; [exact Hrun|].
  apply (proj1 (main_touches_one_file _ _ _ _ _ _ _ _ _ _ _ _ Hrun) "notes.md").
  discriminate.
Defined.
